(** * puppeth: Swarm node status check and deployment

    A shallow embedding of [cmd/puppeth/wizard_swarm.go]: the two
    text/template artifacts, the status checker [checkSwarmNode], the
    deployment driver [deploySwarm], the interactive wizard method that
    merges an existing snapshot with the operator's answers, and the report
    of a snapshot.

    Remote commands, prompts, logging and randomness are events of an
    interaction tree; a deterministic handler with a state of its own plays
    the SSH channel, the container inspector and the operator. *)

From Stdlib Require Import ZArith String Ascii List Bool Lia DecimalString DecimalZ.
From stdpp Require Import base option gmap strings.
From ITree Require Import ITree.

Set Warnings "-register-all,-clear-no-such-hyp".

Local Open Scope Z_scope.
Local Open Scope string_scope.

(** Sequencing of interaction trees, written as in the Go source: one
    statement per line. *)
Declare Scope go_scope.
Delimit Scope go_scope with go.
Notation "x <- t ;; k" := (ITree.bind t (fun x => k))
  (at level 100, t at next level, right associativity) : go_scope.
Notation "t ;; k" := (ITree.bind t (fun _ => k))
  (at level 100, right associativity) : go_scope.
Local Open Scope go_scope.

(** ** Byte strings

    Go strings and [[]byte] are both byte sequences; both are [string] here,
    and a nil slice is the empty string (the code only ever takes [len] of
    one). *)

Abbreviation bytes := string.

Definition nl : string := String "010"%char "".
Definition tab : string := String "009"%char "".
Definition dq : string := String "034"%char "".

(** A Go raw string literal that opens with a line break and holds the given
    lines, each closed by a line break. *)
Definition rawLines (ls : list string) : string :=
  nl +:+ fold_right (fun l acc => l +:+ nl +:+ acc) "" ls.

Fixpoint prefixb (p s : string) : bool :=
  match p, s with
  | "", _ => true
  | String a p', String b s' => if Ascii.eqb a b then prefixb p' s' else false
  | String _ _, "" => false
  end.

(** [strings.Contains s p]. *)
Fixpoint containsb (p s : string) : bool :=
  prefixb p s ||
  match s with
  | "" => false
  | String _ s' => containsb p s'
  end.

(** [p] occurs in [s] as a substring. *)
Definition occurs (p s : string) : Prop := exists a b, s = a +:+ p +:+ b.

Fixpoint mem (c : ascii) (s : string) : bool :=
  match s with
  | "" => false
  | String a s' => Ascii.eqb c a || mem c s'
  end.

(** [strings.Join]. *)
Fixpoint Join (elems : list string) (sep : string) : string :=
  match elems with
  | [] => ""
  | [x] => x
  | x :: rest => x +:+ sep +:+ Join rest sep
  end.

(** [filepath.Join] of a directory and a file name; both arguments are
    already clean wherever the code calls it (a decimal number and a plain
    file name). *)
Definition filepath_Join (dir name : string) : string := dir +:+ "/" +:+ name.

(** The [%d] verb and [strconv.Itoa]. *)
Definition itoa (z : Z) : string := NilEmpty.string_of_int (Z.to_int z).

Definition isDigit (c : ascii) : bool :=
  let n := nat_of_ascii c in (48 <=? n)%nat && (n <=? 57)%nat.

Definition digitVal (c : ascii) : Z := Z.of_nat (nat_of_ascii c) - 48.

Fixpoint parseDigits (s : string) (acc : Z) : option Z :=
  match s with
  | "" => Some acc
  | String c s' => if isDigit c then parseDigits s' (10 * acc + digitVal c) else None
  end.

Definition maxInt : Z := 2 ^ 63 - 1.
Definition minInt : Z := - 2 ^ 63.

(** [strconv.Atoi] on a 64-bit platform: an optional sign and decimal
    digits. The second component tells whether an error came with the value
    (0 on a syntax error, the nearest bound on a range error). *)
Definition Atoi (s : string) : Z * bool :=
  let '(neg, body) :=
    match s with
    | String "-" r => (true, r)
    | String "+" r => (false, r)
    | _ => (false, s)
    end in
  match body with
  | "" => (0, true)
  | _ =>
    match parseDigits body 0 with
    | None => (0, true)
    | Some n =>
      let v := if neg then - n else n in
      if (maxInt <? v)%Z then (maxInt, true)
      else if (v <? minInt)%Z then (minInt, true)
      else (v, false)
    end
  end.

(** Trimming by a predicate on bytes. *)
Fixpoint trimLeft (f : ascii -> bool) (s : string) : string :=
  match s with
  | "" => ""
  | String c s' => if f c then trimLeft f s' else s
  end.

Fixpoint trimRight (f : ascii -> bool) (s : string) : string :=
  match s with
  | "" => ""
  | String c s' =>
    match trimRight f s' with
    | "" => if f c then "" else String c ""
    | r => String c r
    end
  end.

(** ** unicode/utf8

    Go's byte slices hold UTF-8; a rune is a code point. *)

Definition byteVal (c : ascii) : Z := Z.of_nat (nat_of_ascii c).

(** [p[i]], for [i] within [p]. *)
Definition byteAt (p : bytes) (i : nat) : Z :=
  match String.get i p with
  | Some c => byteVal c
  | None => 0
  end.

Definition RuneError : Z := 65533.

Definition RuneSelf : Z := 128.

(** A continuation byte, [10xxxxxx]. *)
Definition isCont (b : Z) : bool := (128 <=? b)%Z && (b <=? 191)%Z.

(** [utf8.RuneStart]. *)
Definition RuneStart (b : Z) : bool := negb (isCont b).

(** The continuation bits of a byte. *)
Definition maskx (b : Z) : Z := Z.land b 63.

(** [s[n:]]. *)
Fixpoint skip (n : nat) (s : string) : string :=
  match n, s with
  | O, _ => s
  | S n', String _ s' => skip n' s'
  | S _, "" => ""
  end.

(** [utf8.DecodeRune]: the first rune of [p] and its width in bytes. An
    encoding that is invalid, too short, over-long or of a surrogate gives
    [RuneError] with width 1, the empty input [RuneError] with width 0. *)
Definition DecodeRune (p : bytes) : Z * nat :=
  match p with
  | "" => (RuneError, 0%nat)
  | String c0 p1 =>
    let p0 := byteVal c0 in
    if (p0 <? RuneSelf)%Z then (p0, 1%nat) else
    (* the size the first byte announces and the range of the second *)
    let '(sz, lo, hi) :=
      if (p0 <? 194)%Z then (0%nat, 0, 0)
      else if (p0 <? 224)%Z then (2%nat, 128, 191)
      else if (p0 =? 224)%Z then (3%nat, 160, 191)
      else if (p0 =? 237)%Z then (3%nat, 128, 159)
      else if (p0 <? 240)%Z then (3%nat, 128, 191)
      else if (p0 =? 240)%Z then (4%nat, 144, 191)
      else if (p0 <? 244)%Z then (4%nat, 128, 191)
      else if (p0 =? 244)%Z then (4%nat, 128, 143)
      else (0%nat, 0, 0) in
    match sz, p1 with
    | 2%nat, String c1 _ =>
      let b1 := byteVal c1 in
      if (b1 <? lo)%Z || (hi <? b1)%Z then (RuneError, 1%nat)
      else (Z.lor (Z.shiftl (Z.land p0 31) 6) (maskx b1), 2%nat)
    | 3%nat, String c1 (String c2 _) =>
      let b1 := byteVal c1 in
      let b2 := byteVal c2 in
      if (b1 <? lo)%Z || (hi <? b1)%Z then (RuneError, 1%nat)
      else if negb (isCont b2) then (RuneError, 1%nat)
      else (Z.lor (Z.lor (Z.shiftl (Z.land p0 15) 12) (Z.shiftl (maskx b1) 6)) (maskx b2),
            3%nat)
    | 4%nat, String c1 (String c2 (String c3 _)) =>
      let b1 := byteVal c1 in
      let b2 := byteVal c2 in
      let b3 := byteVal c3 in
      if (b1 <? lo)%Z || (hi <? b1)%Z then (RuneError, 1%nat)
      else if negb (isCont b2) then (RuneError, 1%nat)
      else if negb (isCont b3) then (RuneError, 1%nat)
      else (Z.lor (Z.lor (Z.lor (Z.shiftl (Z.land p0 7) 18) (Z.shiftl (maskx b1) 12))
                         (Z.shiftl (maskx b2) 6)) (maskx b3),
            4%nat)
    | _, _ => (RuneError, 1%nat)
    end
  end.

(** The loop of [utf8.DecodeLastRune] that walks back from [start] to the
    nearest byte that starts a rune, no further than [lim]; when there is
    none it ends one below [lim], or at 0. *)
Fixpoint scanBack (fuel : nat) (p : bytes) (lim start : nat) : nat :=
  match fuel with
  | O => start
  | S fuel' =>
    if (lim <? start)%nat then
      if RuneStart (byteAt p (start - 1)) then (start - 1)%nat
      else scanBack fuel' p lim (start - 1)
    else (start - 1)%nat
  end.

(** [utf8.DecodeLastRune]: the last rune of [p] and its width. *)
Definition DecodeLastRune (p : bytes) : Z * nat :=
  let len := String.length p in
  match len with
  | O => (RuneError, 0%nat)
  | S last =>
    let r := byteAt p last in
    if (r <? RuneSelf)%Z then (r, 1%nat) else
    let start := scanBack 4 p (len - 4) last in
    let '(r, size) := DecodeRune (skip start p) in
    if (start + size =? len)%nat then (r, size) else (RuneError, 1%nat)
  end.

(** [unicode.IsSpace]: the code points with the White_Space property. *)
Definition IsSpace (r : Z) : bool :=
  ((9 <=? r)%Z && (r <=? 13)%Z) || (r =? 32)%Z || (r =? 133)%Z || (r =? 160)%Z
  || (r =? 5760)%Z || ((8192 <=? r)%Z && (r <=? 8202)%Z) || (r =? 8232)%Z
  || (r =? 8233)%Z || (r =? 8239)%Z || (r =? 8287)%Z || (r =? 12288)%Z.

(** ** bytes.TrimSpace *)

(** [indexFunc]: the index of the first rune from [start] on at which [f]
    is [truth], if there is one. [fuel] bounds the runes looked at. *)
Fixpoint indexFunc (fuel : nat) (s : bytes) (f : Z -> bool) (truth : bool) (start : nat)
    : option nat :=
  match fuel with
  | O => None
  | S fuel' =>
    if (start <? String.length s)%nat then
      let '(r, wid) := DecodeRune (skip start s) in
      if Bool.eqb (f r) truth then Some start
      else indexFunc fuel' s f truth (start + wid)
    else None
  end.

(** [lastIndexFunc]: the index at which the last rune before [i] starts at
    which [f] is [truth], if there is one. *)
Fixpoint lastIndexFunc (fuel : nat) (s : bytes) (f : Z -> bool) (truth : bool) (i : nat)
    : option nat :=
  match fuel with
  | O => None
  | S fuel' =>
    if (0 <? i)%nat then
      let '(r, size) := DecodeLastRune (substring 0 i s) in
      if Bool.eqb (f r) truth then Some (i - size)%nat
      else lastIndexFunc fuel' s f truth (i - size)
    else None
  end.

(** [bytes.TrimLeftFunc]. *)
Definition TrimLeftFunc (s : bytes) (f : Z -> bool) : bytes :=
  match indexFunc (String.length s) s f false 0 with
  | None => ""
  | Some i => skip i s
  end.

(** [bytes.TrimRightFunc]: the slice ends after the last rune at which [f]
    is false. *)
Definition TrimRightFunc (s : bytes) (f : Z -> bool) : bytes :=
  match lastIndexFunc (String.length s) s f false (String.length s) with
  | None => ""
  | Some i =>
    if (RuneSelf <=? byteAt s i)%Z then substring 0 (i + snd (DecodeRune (skip i s))) s
    else substring 0 (i + 1) s
  end.

(** [bytes.TrimFunc]. *)
Definition TrimFunc (s : bytes) (f : Z -> bool) : bytes :=
  TrimRightFunc (TrimLeftFunc s f) f.

(** [bytes.TrimSpace]: leading and trailing white space goes, as Unicode
    defines it. *)
Definition TrimSpace (s : bytes) : bytes := TrimFunc s IsSpace.

(** [bytes.Trim s cutset], for a cutset of ASCII characters. *)
Definition Trim (s : bytes) (cutset : string) : bytes :=
  trimLeft (fun c => mem c cutset) (trimRight (fun c => mem c cutset) s).

Definition isLetter (c : ascii) : bool :=
  let n := nat_of_ascii c in
  ((65 <=? n)%nat && (n <=? 90)%nat) || ((97 <=? n)%nat && (n <=? 122)%nat).

Definition toUpper (c : ascii) : ascii :=
  let n := nat_of_ascii c in
  if (97 <=? n)%nat && (n <=? 122)%nat then ascii_of_nat (n - 32) else c.

(** [strings.Title] on ASCII text: the first letter of every word goes to
    upper case; letters, digits and the underscore continue a word. *)
Fixpoint titleFrom (prevSep : bool) (s : string) : string :=
  match s with
  | "" => ""
  | String c s' =>
    let inWord := isLetter c || isDigit c || Ascii.eqb c "_" in
    String (if prevSep && isLetter c then toUpper c else c) (titleFrom (negb inWord) s')
  end.

Definition Title (s : string) : string := titleFrom true s.

(** [err != nil]. *)
Definition is_Some_b {A : Type} (o : option A) : bool :=
  match o with
  | Some _ => true
  | None => false
  end.

(** ** text/template

    The fragment of Go's template language the two artifacts use: literal
    text, [{{.Field}}] on a [map[string]interface{}] and [{{if .Field}}]
    closed by [{{end}}]. *)

(** The dynamic values the code stores in a template's data map. *)
Inductive value : Type :=
| VInt (z : Z)
| VStr (s : string)
| VBool (b : bool).

Inductive token : Type :=
| TText (s : string)
| TField (name : string)
| TIf (name : string)
| TEnd.

Inductive node : Type :=
| NText (s : string)
| NField (name : string)
| NIf (name : string) (body : list node).

Definition template : Type := list node.

Fixpoint isIdentTail (s : string) : bool :=
  match s with
  | "" => true
  | String c s' => (isLetter c || isDigit c || Ascii.eqb c "_") && isIdentTail s'
  end.

(** [.Name]: a field of the data map. *)
Definition fieldName (s : string) : option string :=
  match s with
  | String "." (String c r) =>
    if (isLetter c || Ascii.eqb c "_") && isIdentTail r then Some (String c r) else None
  | _ => None
  end.

(** What stands between [{{] and [}}]. *)
(** The white space of the template lexer: space, tab, carriage return and
    line feed. *)
Definition isSpace (c : ascii) : bool :=
  let n := nat_of_ascii c in
  (n =? 32)%nat || (n =? 9)%nat || (n =? 13)%nat || (n =? 10)%nat.

Definition trimSpaces (s : string) : string := trimLeft isSpace (trimRight isSpace s).

Definition action (a : string) : option token :=
  let a := trimSpaces a in
  if String.eqb a "end" then Some TEnd
  else if prefixb "if " a then option_map TIf (fieldName (trimSpaces (skip 3 a)))
  else option_map TField (fieldName a).

Definition textTok (acc : string) : list token :=
  match acc with
  | "" => []
  | _ => [TText acc]
  end.

Definition snoc (s : string) (c : ascii) : string := s +:+ String c "".

Fixpoint lex (inAction : bool) (acc : string) (s : string) : option (list token) :=
  match s with
  | "" => if inAction then None else Some (textTok acc)
  | String c s' =>
    if inAction then
      match s' with
      | String c2 s'' =>
        if Ascii.eqb c "}" && Ascii.eqb c2 "}" then
          match action acc, lex false "" s'' with
          | Some t, Some ts => Some (t :: ts)
          | _, _ => None
          end
        else lex true (snoc acc c) s'
      | "" => None
      end
    else
      match s' with
      | String c2 s'' =>
        if Ascii.eqb c "{" && Ascii.eqb c2 "{" then
          option_map (fun ts => (textTok acc ++ ts)%list) (lex true "" s'')
        else lex false (snoc acc c) s'
      | "" => Some (textTok (snoc acc c))
      end
  end.

(** Tokens to a tree; [stack] holds the enclosing [if]s with the nodes
    seen before each of them, newest first. *)
Fixpoint build (toks : list token) (cur : list node)
    (stack : list (string * list node)) : option template :=
  match toks with
  | [] =>
    match stack with
    | [] => Some (rev cur)
    | _ :: _ => None
    end
  | TText s :: r => build r (NText s :: cur) stack
  | TField n :: r => build r (NField n :: cur) stack
  | TIf n :: r => build r [] ((n, cur) :: stack)
  | TEnd :: r =>
    match stack with
    | [] => None
    | (n, outer) :: st => build r (NIf n (rev cur) :: outer) st
    end
  end.

(** [template.New("").Parse]. *)
Definition Parse (text : string) : option template :=
  match lex false "" text with
  | Some toks => build toks [] []
  | None => None
  end.

(** [template.Must]: the parse error would be a panic at start-up; both
    templates of this file parse ([swarmDockerfile_parses],
    [swarmComposefile_parses]). *)
Definition Must (t : option template) : template := default [] t.

(** A missing map key prints as [<no value>]. *)
Definition printValue (v : option value) : string :=
  match v with
  | None => "<no value>"
  | Some (VInt z) => itoa z
  | Some (VStr s) => s
  | Some (VBool true) => "true"
  | Some (VBool false) => "false"
  end.

(** The emptiness test of [if]: false, 0, the empty string, a missing key. *)
Definition truth (v : option value) : bool :=
  match v with
  | None => false
  | Some (VInt z) => negb (z =? 0)%Z
  | Some (VStr s) => negb (String.eqb s "")
  | Some (VBool b) => b
  end.

Fixpoint execNode (data : gmap string value) (n : node) : string :=
  match n with
  | NText s => s
  | NField name => printValue (data !! name)
  | NIf name body =>
    if truth (data !! name)
    then (fix go (l : list node) : string :=
            match l with
            | [] => ""
            | x :: r => execNode data x +:+ go r
            end) body
    else ""
  end.

(** [t.Execute(buf, data)], as the bytes left in [buf]. *)
Fixpoint Execute (t : template) (data : gmap string value) : string :=
  match t with
  | [] => ""
  | n :: r => execNode data n +:+ Execute r data
  end.

(** ** The two artifacts *)

(** [swarmDockerfile]: the build recipe of a Swarm node. *)
Definition swarmDockerfile : string := rawLines [
  "FROM ethereum/client-go:alltools-v1.8.3";
  "";
  "ADD genesis.json /genesis.json";
  "ADD bzzkey.json /bzzkey.json";
  "ADD bzzpass /bzzpass";
  "";
  "RUN \";
  tab +:+ "echo 'mkdir -p /root/.ethereum/keystore/ && cp /bzzkey.json /root/.ethereum/keystore/' > geth.sh && \";
  tab +:+ "echo $'swarm --bzznetworkid {{.NetworkID}} {{if .BzzAccount}}--bzzaccount {{.BzzAccount}} {{end}}--port {{.Port}} --bzzport {{.bzzPort}} --maxpeers {{.Peers}} {{if .SwarmBoot}}--bootnodes {{.SwarmBoot}}{{end}} --password /bzzpass' >> geth.sh";
  "";
  "ENTRYPOINT [" +:+ dq +:+ "/bin/sh" +:+ dq +:+ ", " +:+ dq +:+ "geth.sh" +:+ dq +:+ "]"
].

(** [swarmComposefile]: the docker-compose.yml of a Swarm node. *)
Definition swarmComposefile : string := rawLines [
  "version: '2'";
  "services:";
  "  {{.Type}}:";
  "    build: .";
  "    image: {{.Network}}/{{.Type}}";
  "    ports:";
  "      - " +:+ dq +:+ "{{.Port}}:{{.Port}}" +:+ dq;
  "      - " +:+ dq +:+ "{{.Port}}:{{.Port}}/udp" +:+ dq;
  "    volumes:";
  "      - {{.Datadir}}:/root/.ethereum";
  "    environment:";
  "      - PORT={{.bzzPort}}/tcp";
  "    logging:";
  "      driver: " +:+ dq +:+ "json-file" +:+ dq;
  "      options:";
  "        max-size: " +:+ dq +:+ "1m" +:+ dq;
  "        max-file: " +:+ dq +:+ "10" +:+ dq;
  "    restart: always"
].

(** ** Data model *)

(** Modelled from the spec: the error kinds of section 7, whose declarations
    live outside this file. [ErrNotFound] is what the container inspector
    reports for a container that does not exist; [ErrRemoteCommandFailed]
    stands for every other error value of the channel. *)
Inductive error : Type :=
| ErrNotFound
| ErrServiceOffline
| ErrServiceUnreachable
| ErrConfigInvalid
| ErrRemoteCommandFailed (output : string).

(** The two fields of [sshClient] this file reads. *)
Record sshClient : Type := {
  server : string;
  address : string
}.

(** What [inspectContainer] reports about a container. *)
Record containerInfos : Type := {
  running : bool;
  envvars : gmap string string;
  portmap : gmap string Z;
  volumes : gmap string string
}.

(** [swarmInfos] is returned from a status check. *)
Record swarmInfos : Type := {
  genesis : bytes;
  network : Z;
  datadir : string;
  peersTotal : Z;
  port : Z;
  bzzPort : Z;
  enode : string;
  swarmenode : string;
  bzzAccount : string;
  keyJSON : string;
  keyPass : string
}.

(** Indexing a Go map: the zero value when the key is missing. *)
Definition index {V : Type} (zero : V) (m : gmap string V) (k : string) : V :=
  default zero (m !! k).

(** [common.Address] is a twenty-byte array, kept as the number it spells. *)
Record Address : Type := { addressBits : N }.

(** A structured logging value. *)
Inductive logValue : Type :=
| LStr (s : string)
| LInt (z : Z)
| LErr (e : option error).

(** ** Events

    Everything the code asks of its environment: the SSH channel, the
    container inspector, the reachability probe, the random source, the
    logger and the operator's console. *)
Variant puppethE : Type -> Type :=
| ClientRun (client : sshClient) (cmd : string) : puppethE (bytes * option error)
| ClientStream (client : sshClient) (cmd : string) : puppethE (option error)
| ClientUpload (client : sshClient) (files : gmap string bytes)
    : puppethE (bytes * option error)
| InspectContainer (client : sshClient) (container : string)
    : puppethE (containerInfos + error)
| CheckPort (host : string) (port : Z) : puppethE (option error)
| RandInt63 : puppethE Z
| Log (level msg : string) (ctx : list (string * logValue)) : puppethE unit
| Printf (text : string) : puppethE unit
| SelectServer : puppethE string
| ReadString : puppethE string
| ReadDefaultString (def : string) : puppethE string
| ReadDefaultInt (def : Z) : puppethE Z
| ReadJSON : puppethE string
| ReadPassword : puppethE string
| ReadAddress : puppethE (option Address)
| ReadDefaultAddress (def : Address) : puppethE Address
| Sleep (seconds : Z) : puppethE unit
| NetworkStats : puppethE unit.

(** A Go panic ends the run with its message. *)
Variant panicE : Type -> Type :=
| Panic (msg : string) : panicE Empty_set.

Definition goE : Type -> Type := panicE +' puppethE.

Definition call {X : Type} (e : puppethE X) : itree goE X := ITree.trigger (inr1 e).

Definition panic {R : Type} (msg : string) : itree goE R :=
  v <- ITree.trigger (inl1 (Panic msg)) ;; match v : Empty_set with end.

(** [defer cleanup] in front of [body]: [cleanup] runs when [body] has
    produced the function's results, and what it returns is dropped. *)
Definition defer {X R : Type} (cleanup : itree goE X) (body : itree goE R) : itree goE R :=
  r <- body ;; cleanup ;; Ret r.

(** ** deploySwarm *)

(** Lines 206-210: the role, decided by the absence of a node identity. *)
Definition deployKind (config : swarmInfos) : string :=
  if String.eqb (swarmenode config) "" then "swarmboot" else "swarmnode".

Definition deployBootnodes (swarmboot : list string) (config : swarmInfos) : list string :=
  if String.eqb (swarmenode config) "" then [] else swarmboot.

(** Lines 217-225: the data of the build recipe. *)
Definition dockerfileData (swarmboot : list string) (config : swarmInfos)
    : gmap string value :=
  <["BzzAccount" := VStr (bzzAccount config)]>
  (<["Unlock" := VBool (negb (String.eqb (keyJSON config) ""))]>
  (<["SwarmBoot" := VStr (Join swarmboot ",")]>
  (<["bzzPort" := VInt (bzzPort config)]>
  (<["Peers" := VInt (peersTotal config)]>
  (<["Port" := VInt (port config)]>
  (<["NetworkID" := VInt (network config)]> ∅)))))).

(** Lines 229-237: the data of the composition descriptor. *)
Definition composefileData (kind network : string) (config : swarmInfos)
    : gmap string value :=
  <["BzzAccount" := VStr (bzzAccount config)]>
  (<["TotalPeers" := VInt (peersTotal config)]>
  (<["Port" := VInt (port config)]>
  (<["Network" := VStr network]>
  (<["Datadir" := VStr (datadir config)]>
  (<["Type" := VStr kind]> ∅))))).

Definition renderDockerfile (swarmboot : list string) (config : swarmInfos) : bytes :=
  Execute (Must (Parse swarmDockerfile))
          (dockerfileData (deployBootnodes swarmboot config) config).

Definition renderComposefile (network : string) (config : swarmInfos) : bytes :=
  Execute (Must (Parse swarmComposefile))
          (composefileData (deployKind config) network config).

(** Lines 214-244: the files to upload, keyed by path. *)
Definition deployFiles (workdir network : string) (swarmboot : list string)
    (config : swarmInfos) : gmap string bytes :=
  let files : gmap string bytes := ∅ in
  let files := <[filepath_Join workdir "Dockerfile" := renderDockerfile swarmboot config]> files in
  let files := <[filepath_Join workdir "docker-compose.yaml" := renderComposefile network config]> files in
  let files := <[filepath_Join workdir "genesis.json" := genesis config]> files in
  if negb (String.eqb (keyJSON config) "") then
    let files := <[filepath_Join workdir "bzzkey.json" := keyJSON config]> files in
    <[filepath_Join workdir "bzzpass" := keyPass config]> files
  else files.

Definition buildCommand (workdir network : string) (nocache : bool) : string :=
  if nocache then
    "cd " +:+ workdir +:+ " && docker-compose -p " +:+ network
      +:+ " build --pull --no-cache && docker-compose -p " +:+ network
      +:+ " up -d --force-recreate"
  else
    "cd " +:+ workdir +:+ " && docker-compose -p " +:+ network
      +:+ " up -d --build --force-recreate".

(** [deploySwarm] deploys a new Swarm node container to a remote machine
    via SSH, docker and docker-compose. *)
Definition deploySwarm (client : sshClient) (network : string) (swarmboot : list string)
    (config : swarmInfos) (nocache : bool) : itree goE (bytes * option error) :=
  r <- call RandInt63 ;;
  let workdir := itoa r in
  let files := deployFiles workdir network swarmboot config in
  up <- call (ClientUpload client files) ;;
  let '(out, err) := up in
  match err with
  | Some e => Ret (out, Some e)
  | None =>
    defer (call (ClientRun client ("rm -rf " +:+ workdir)))
      (err <- call (ClientStream client (buildCommand workdir network nocache)) ;;
       Ret ("", err))
  end.

(** ** checkSwarmNode *)

Definition checkKind (boot : bool) : string :=
  if negb boot then "swarmnode" else "bootswarm".

(** The container a status check looks at: [%s_%s_1]. *)
Definition checkContainer (network : string) (boot : bool) : string :=
  network +:+ "_" +:+ checkKind boot +:+ "_1".

Definition dockerExec (network : string) (boot : bool) (cmd : string) : string :=
  "docker exec " +:+ checkContainer network boot +:+ " " +:+ cmd.

(** [checkSwarmNode] does a health-check against a Swarm node to verify
    whether it is running, and if yes, whether it is responsive. *)
Definition checkSwarmNode (client : sshClient) (network : string) (boot : bool)
    : itree goE (option swarmInfos * option error) :=
  let kind := checkKind boot in
  r <- call (InspectContainer client (checkContainer network boot)) ;;
  match r with
  | inr err => Ret (None, Some err)
  | inl infos =>
    if negb (running infos) then Ret (None, Some ErrServiceOffline) else
    let totalPeers := fst (Atoi (index "" (envvars infos) "TOTAL_PEERS")) in
    r1 <- call (ClientRun client (dockerExec network boot
            "geth --exec admin.nodeInfo.id attach /root/.ethereum/bzzd.ipc")) ;;
    let '(out, err) := r1 in
    if is_Some_b err then Ret (None, Some ErrServiceUnreachable) else
    let id := Trim (TrimSpace out) dq in
    r2 <- call (ClientRun client (dockerExec network boot "cat /genesis.json")) ;;
    let '(out, err) := r2 in
    if is_Some_b err then Ret (None, Some ErrServiceUnreachable) else
    let genesis := TrimSpace out in
    r3 <- call (ClientRun client (dockerExec network boot "cat /bzzkey.json")) ;;
    let keyJSON := if is_Some_b (snd r3) then "" else TrimSpace (fst r3) in
    r4 <- call (ClientRun client (dockerExec network boot "cat /bzzpass")) ;;
    let keyPass := if is_Some_b (snd r4) then "" else TrimSpace (fst r4) in
    let port := index 0 (portmap infos) (index "" (envvars infos) "PORT") in
    err <- call (CheckPort (server client) port) ;;
    (if is_Some_b err then
       call (Log "warn" (Title kind +:+ " devp2p port seems unreachable")
               [("server", LStr (server client)); ("port", LInt port); ("err", LErr err)])
     else Ret tt) ;;
    let stats := {|
      genesis := genesis;
      network := 0;
      datadir := index "" (volumes infos) "/root/.ethereum";
      peersTotal := totalPeers;
      port := port;
      bzzPort := 0;
      enode := "";
      swarmenode := "enode://" +:+ id +:+ "@" +:+ address client +:+ ":" +:+ itoa port;
      bzzAccount := index "" (envvars infos) "BZZ_NAME";
      keyJSON := keyJSON;
      keyPass := keyPass
    |} in
    Ret (Some stats, None)
  end.

(** ** The wizard

    [infos.f = v] on the snapshot the wizard holds. *)

Definition set_genesis (v : bytes) (i : swarmInfos) : swarmInfos :=
  {| genesis := v; network := network i; datadir := datadir i;
     peersTotal := peersTotal i; port := port i; bzzPort := bzzPort i;
     enode := enode i; swarmenode := swarmenode i; bzzAccount := bzzAccount i; keyJSON := keyJSON i; keyPass := keyPass i |}.

Definition set_network (v : Z) (i : swarmInfos) : swarmInfos :=
  {| genesis := genesis i; network := v; datadir := datadir i;
     peersTotal := peersTotal i; port := port i; bzzPort := bzzPort i;
     enode := enode i; swarmenode := swarmenode i; bzzAccount := bzzAccount i; keyJSON := keyJSON i; keyPass := keyPass i |}.

Definition set_datadir (v : string) (i : swarmInfos) : swarmInfos :=
  {| genesis := genesis i; network := network i; datadir := v;
     peersTotal := peersTotal i; port := port i; bzzPort := bzzPort i;
     enode := enode i; swarmenode := swarmenode i; bzzAccount := bzzAccount i; keyJSON := keyJSON i; keyPass := keyPass i |}.

Definition set_peersTotal (v : Z) (i : swarmInfos) : swarmInfos :=
  {| genesis := genesis i; network := network i; datadir := datadir i;
     peersTotal := v; port := port i; bzzPort := bzzPort i;
     enode := enode i; swarmenode := swarmenode i; bzzAccount := bzzAccount i; keyJSON := keyJSON i; keyPass := keyPass i |}.

Definition set_port (v : Z) (i : swarmInfos) : swarmInfos :=
  {| genesis := genesis i; network := network i; datadir := datadir i;
     peersTotal := peersTotal i; port := v; bzzPort := bzzPort i;
     enode := enode i; swarmenode := swarmenode i; bzzAccount := bzzAccount i; keyJSON := keyJSON i; keyPass := keyPass i |}.

Definition set_bzzPort (v : Z) (i : swarmInfos) : swarmInfos :=
  {| genesis := genesis i; network := network i; datadir := datadir i;
     peersTotal := peersTotal i; port := port i; bzzPort := v;
     enode := enode i; swarmenode := swarmenode i; bzzAccount := bzzAccount i; keyJSON := keyJSON i; keyPass := keyPass i |}.

Definition set_bzzAccount (v : string) (i : swarmInfos) : swarmInfos :=
  {| genesis := genesis i; network := network i; datadir := datadir i;
     peersTotal := peersTotal i; port := port i; bzzPort := bzzPort i;
     enode := enode i; swarmenode := swarmenode i; bzzAccount := v; keyJSON := keyJSON i; keyPass := keyPass i |}.

Definition set_keyJSON (v : string) (i : swarmInfos) : swarmInfos :=
  {| genesis := genesis i; network := network i; datadir := datadir i;
     peersTotal := peersTotal i; port := port i; bzzPort := bzzPort i;
     enode := enode i; swarmenode := swarmenode i; bzzAccount := bzzAccount i; keyJSON := v; keyPass := keyPass i |}.

Definition set_keyPass (v : string) (i : swarmInfos) : swarmInfos :=
  {| genesis := genesis i; network := network i; datadir := datadir i;
     peersTotal := peersTotal i; port := port i; bzzPort := bzzPort i;
     enode := enode i; swarmenode := swarmenode i; bzzAccount := bzzAccount i; keyJSON := keyJSON i; keyPass := v |}.

(** What the wizard keeps of the missing packages: the genesis block with
    its JSON rendering and chain id, the hex spelling of addresses and the
    key-store decryption (true when the passphrase opens the key).

    [ChainId g] is [g.Config.ChainId.Int64()]: the chain configuration and
    the id in it are pointers, and there is no id to read when either is
    nil. *)
Section Wizard.
Variable Genesis : Type.
Variable MarshalIndent : Genesis -> bytes.
Variable ChainId : Genesis -> option Z.
Variable Hex : Address -> string.
Variable HexToAddress : string -> Address.
Variable DecryptKey : string -> string -> bool.



(** Lines 101-106: ask until an address is read. *)
Definition readBzzAccount : itree goE Address :=
  ITree.iter (fun _ : unit =>
    a <- call ReadAddress ;;
    match a with
    | Some address => Ret (inr address)
    | None => Ret (inl tt)
    end) tt.

(** Lines 55-110 of [wizard.deploySwarm]: the snapshot (or the defaults)
    is merged with the wizard's genesis and the operator's answers.
    Line 56 dereferences the chain configuration of the genesis and
    panics, before any question, when there is no chain id to read.
    [None] is the early return after a key that does not decrypt. *)
Definition mergeSwarmInfos (g : Genesis) (infos : swarmInfos) : itree goE (option swarmInfos) :=
  let infos := set_genesis (MarshalIndent g) infos in
  match ChainId g with
  | None => panic "invalid memory address or nil pointer dereference"
  | Some id =>
  let infos := set_network id infos in
  call (Printf nl) ;;
  dir <- (if String.eqb (datadir infos) "" then
            call (Printf ("Where should data be stored on the remote machine?" +:+ nl)) ;;
            call ReadString
          else
            call (Printf ("Where should data be stored on the remote machine? (default = "
                           +:+ datadir infos +:+ ")" +:+ nl)) ;;
            call (ReadDefaultString (datadir infos))) ;;
  let infos := set_datadir dir infos in
  call (Printf nl) ;;
  call (Printf ("Which TCP/UDP port to listen on? (default = " +:+ itoa (port infos)
                 +:+ ")" +:+ nl)) ;;
  p <- call (ReadDefaultInt (port infos)) ;;
  let infos := set_port p infos in
  call (Printf nl) ;;
  call (Printf ("Which bzzport to listen on? (default = " +:+ itoa (bzzPort infos)
                 +:+ ")" +:+ nl)) ;;
  b <- call (ReadDefaultInt (bzzPort infos)) ;;
  let infos := set_bzzPort b infos in
  call (Printf nl) ;;
  call (Printf ("How many peers to allow connecting? (default = "
                 +:+ itoa (peersTotal infos) +:+ ")" +:+ nl)) ;;
  n <- call (ReadDefaultInt (peersTotal infos)) ;;
  let infos := set_peersTotal n infos in
  keyed <- (if String.eqb (keyJSON infos) "" then
              call (Printf nl) ;;
              call (Printf ("Please paste the bzzaccount's key JSON:" +:+ nl)) ;;
              k <- call ReadJSON ;;
              let infos := set_keyJSON k infos in
              call (Printf nl) ;;
              call (Printf ("What's the unlock password for the account? (won't be echoed)"
                             +:+ nl)) ;;
              pw <- call ReadPassword ;;
              let infos := set_keyPass pw infos in
              if negb (DecryptKey (keyJSON infos) (keyPass infos)) then
                call (Log "error" "Failed to decrypt key with given passphrase" []) ;;
                Ret None
              else Ret (Some infos)
            else Ret (Some infos)) ;;
  match keyed with
  | None => Ret None
  | Some infos =>
    call (Printf nl) ;;
    acct <- (if String.eqb (bzzAccount infos) "" then
               call (Printf ("Please paste the bzzaccount:" +:+ nl)) ;;
               a <- readBzzAccount ;;
               Ret (Hex a)
             else
               call (Printf ("Please paste the bzzaccount (default = "
                              +:+ bzzAccount infos +:+ ")" +:+ nl)) ;;
               a <- call (ReadDefaultAddress (HexToAddress (bzzAccount infos))) ;;
               Ret (Hex a)) ;;
    Ret (Some (set_bzzAccount acct infos))
  end
  end.

End Wizard.

(** ** Running a program against its environment *)

(** An event as it is recorded in a trace. *)
Definition event : Type := { X : Type & puppethE X }.

Definition ev {X : Type} (e : puppethE X) : event := existT X e.

Inductive outcome (R : Type) : Type :=
| Returned (r : R)
| Panicked (msg : string).

Arguments Returned {R} r.
Arguments Panicked {R} msg.

Section Run.
Context {St : Type}.

(** The environment: how each event is answered in a state of the remote
    host and the console, and the state it leaves. *)
Variable handle : forall X, puppethE X -> St -> X * St.

(** [run fuel t s tr] follows [t] for at most [fuel] nodes, from state [s]
    and with [tr] the events issued so far; [None] when the fuel runs out
    first. *)
Fixpoint run {R : Type} (fuel : nat) (t : itree goE R) (s : St) (tr : list event)
    : option (outcome R * St * list event) :=
  match fuel with
  | O => None
  | S fuel' =>
    match observe t with
    | RetF r => Some (Returned r, s, tr)
    | TauF t' => run fuel' t' s tr
    | @VisF _ _ _ X e k =>
      match e with
      | inl1 (Panic msg) => Some (Panicked msg, s, tr)
      | inr1 e' =>
        let '(x, s') := handle _ e' s in run fuel' (k x) s' (tr ++ [ev e'])%list
      end
    end
  end.
End Run.

(** What a run returned, if it returned. *)
Definition returned {R St : Type} (o : option (outcome R * St * list event)) : option R :=
  match o with
  | Some (Returned r, _, _) => Some r
  | _ => None
  end.

Definition peerConfig : swarmInfos :=
  {| genesis := "{}"; network := 1337; datadir := "/data"; peersTotal := 50;
     port := 30399; bzzPort := 8500; enode := "";
     swarmenode := "enode://abc@10.0.0.1:30399";
     bzzAccount := "0x123"; keyJSON := "{key}"; keyPass := "root" |}.

Definition fullSnapshot : swarmInfos :=
  {| genesis := "{old}"; network := 0; datadir := "/data"; peersTotal := 50;
     port := 31000; bzzPort := 0; enode := "";
     swarmenode := "enode://abc@10.0.0.1:31000";
     bzzAccount := "0x123"; keyJSON := "{key}"; keyPass := "secret" |}.

(** ** Shapes of the rendered artifacts *)

(** The build recipe up to the network id, and after the peer list. *)
Definition dockerfileHead : string :=
  nl +:+ "FROM ethereum/client-go:alltools-v1.8.3" +:+ nl
  +:+ nl
  +:+ "ADD genesis.json /genesis.json" +:+ nl
  +:+ "ADD bzzkey.json /bzzkey.json" +:+ nl
  +:+ "ADD bzzpass /bzzpass" +:+ nl
  +:+ nl
  +:+ "RUN \" +:+ nl
  +:+ tab +:+ "echo 'mkdir -p /root/.ethereum/keystore/ && cp /bzzkey.json /root/.ethereum/keystore/' > geth.sh && \" +:+ nl
  +:+ tab +:+ "echo $'swarm --bzznetworkid ".

Definition dockerfileTail : string :=
  " --password /bzzpass' >> geth.sh" +:+ nl
  +:+ nl
  +:+ "ENTRYPOINT [" +:+ dq +:+ "/bin/sh" +:+ dq +:+ ", " +:+ dq +:+ "geth.sh" +:+ dq +:+ "]" +:+ nl.

(** [{{if .BzzAccount}}--bzzaccount {{.BzzAccount}} {{end}}]. *)
Definition accountFlag (account : string) : string :=
  if String.eqb account "" then "" else "--bzzaccount " +:+ account +:+ " ".

(** [{{if .SwarmBoot}}--bootnodes {{.SwarmBoot}}{{end}}]. *)
Definition bootnodesFlag (peers : string) : string :=
  if String.eqb peers "" then "" else "--bootnodes " +:+ peers.

(** The build recipe up to the place of the peer list. *)
Definition recipeBeforePeers (config : swarmInfos) : string :=
  dockerfileHead +:+ itoa (network config) +:+ " "
  +:+ accountFlag (bzzAccount config)
  +:+ "--port " +:+ itoa (port config)
  +:+ " --bzzport " +:+ itoa (bzzPort config)
  +:+ " --maxpeers " +:+ itoa (peersTotal config) +:+ " ".

(** The composition descriptor up to the environment section, and the rest
    of it. *)
Definition composeService (kind network : string) (port : Z) (datadir : string) : string :=
  nl +:+ "version: '2'" +:+ nl
  +:+ "services:" +:+ nl
  +:+ "  " +:+ kind +:+ ":" +:+ nl
  +:+ "    build: ." +:+ nl
  +:+ "    image: " +:+ network +:+ "/" +:+ kind +:+ nl
  +:+ "    ports:" +:+ nl
  +:+ "      - " +:+ dq +:+ itoa port +:+ ":" +:+ itoa port +:+ dq +:+ nl
  +:+ "      - " +:+ dq +:+ itoa port +:+ ":" +:+ itoa port +:+ "/udp" +:+ dq +:+ nl
  +:+ "    volumes:" +:+ nl
  +:+ "      - " +:+ datadir +:+ ":/root/.ethereum" +:+ nl.

Definition composeTail : string :=
  "    environment:" +:+ nl
  +:+ "      - PORT=<no value>/tcp" +:+ nl
  +:+ "    logging:" +:+ nl
  +:+ "      driver: " +:+ dq +:+ "json-file" +:+ dq +:+ nl
  +:+ "      options:" +:+ nl
  +:+ "        max-size: " +:+ dq +:+ "1m" +:+ dq +:+ nl
  +:+ "        max-file: " +:+ dq +:+ "10" +:+ dq +:+ nl
  +:+ "    restart: always" +:+ nl.

(** The name docker-compose gives the first container of a service in a
    project whose name is lower-case and alphanumeric. *)
Definition composeContainer (project service : string) : string :=
  project +:+ "_" +:+ service +:+ "_1".

(** ** The questions of the merge

    What the wizard prints and reads for a snapshot, in the order of lines
    59-110: a field the snapshot has is offered as the default of its
    question. *)





(** ** Scripted environments *)

(** A fixed remote host and an operator who accepts every default on
    offer. *)
Record scenario : Type := {
  sc_container : containerInfos + error;
  sc_run : string -> bytes * option error;
  sc_upload : bytes * option error;
  sc_stream : option error;
  sc_checkPort : option error;
  sc_rand : Z;
  sc_server : string;
  sc_typed : string;
  sc_address : option Address
}.

(** The state counts the events answered so far. *)
Definition play (sc : scenario) : forall X, puppethE X -> nat -> X * nat :=
  fun X e n =>
    (match e in puppethE X0 return X0 with
     | ClientRun _ cmd => sc_run sc cmd
     | ClientStream _ _ => sc_stream sc
     | ClientUpload _ _ => sc_upload sc
     | InspectContainer _ _ => sc_container sc
     | CheckPort _ _ => sc_checkPort sc
     | RandInt63 => sc_rand sc
     | Log _ _ _ => tt
     | Printf _ => tt
     | SelectServer => sc_server sc
     | ReadString => sc_typed sc
     | ReadDefaultString def => def
     | ReadDefaultInt def => def
     | ReadJSON => sc_typed sc
     | ReadPassword => sc_typed sc
     | ReadAddress => sc_address sc
     | ReadDefaultAddress def => def
     | Sleep _ => tt
     | NetworkStats => tt
     end, S n).

Definition testClient : sshClient := {| server := "host1"; address := "10.0.0.1" |}.

(** Answers of a live node to the commands run inside its container. *)
Definition liveAnswers (cmd : string) : bytes * option error :=
  if containsb "admin.nodeInfo.id" cmd then (dq +:+ "abc" +:+ dq +:+ nl, None)
  else if containsb "/genesis.json" cmd then ("{old}" +:+ nl, None)
  else if containsb "/bzzkey.json" cmd then ("{key}" +:+ nl, None)
  else if containsb "/bzzpass" cmd then ("secret" +:+ nl, None)
  else ("", None).

(** The container of the scenario in section 8 of the specification. *)
Definition peersOnlyContainer : containerInfos :=
  {| running := true;
     envvars := {[ "TOTAL_PEERS" := "50" ]};
     portmap := {[ "30303" := 31000 ]};
     volumes := ∅ |}.

Definition fullContainer : containerInfos :=
  {| running := true;
     envvars := <["BZZ_NAME" := "0x123"]> (<["PORT" := "30303"]> {[ "TOTAL_PEERS" := "50" ]});
     portmap := {[ "30303" := 31000 ]};
     volumes := {[ "/root/.ethereum" := "/data" ]} |}.

Definition liveNode (c : containerInfos + error) : scenario :=
  {| sc_container := c;
     sc_run := liveAnswers;
     sc_upload := ("", None);
     sc_stream := None;
     sc_checkPort := None;
     sc_rand := 42;
     sc_server := "host1";
     sc_typed := "";
     sc_address := None |}.

(** The upload goes through, the build fails, and so does the removal. *)
Definition failingBuild : scenario :=
  {| sc_container := inr ErrNotFound;
     sc_run := fun _ => ("", Some (ErrRemoteCommandFailed "rm: cannot remove"));
     sc_upload := ("", None);
     sc_stream := Some (ErrRemoteCommandFailed "build failed");
     sc_checkPort := None;
     sc_rand := 42;
     sc_server := "host1";
     sc_typed := "";
     sc_address := None |}.

(** A node whose container answers no command. *)
Definition muteNode : scenario :=
  {| sc_container := inl peersOnlyContainer;
     sc_run := fun _ => ("", Some (ErrRemoteCommandFailed "exit status 1"));
     sc_upload := ("", None);
     sc_stream := None;
     sc_checkPort := None;
     sc_rand := 42;
     sc_server := "host1";
     sc_typed := "";
     sc_address := None |}.



(** Stand-ins for the hex spelling of addresses. *)
Definition testHex (a : Address) : string := "0x" +:+ itoa (Z.of_N (addressBits a)).
Definition testHexToAddress (s : string) : Address :=
  {| addressBits := Z.to_N (fst (Atoi (skip 2 s))) |}.

Definition testConfig : swarmInfos :=
  {| genesis := "{}"; network := 1337; datadir := "/data"; peersTotal := 50;
     port := 30399; bzzPort := 8500; enode := ""; swarmenode := "";
     bzzAccount := "0x123"; keyJSON := "{key}"; keyPass := "root" |}.

(** ** Report *)

Section Report.
(** [json.Unmarshal] of a key file into a struct with the one field
    [address]: the address read, or the decoder's error. *)
Variable Unmarshal : string -> string + error.
Variable Hex : Address -> string.
Variable HexToAddress : string -> Address.

(** [Report] converts the typed struct into a plain string->string map,
    containing most - but not all - fields for reporting to the user. *)
Definition Report (info : swarmInfos) : itree goE (gmap string string) :=
  let report : gmap string string :=
    <["Peer count (all total)" := itoa (peersTotal info)]>
    (<["Listener port" := itoa (port info)]>
    (<["Data directory" := datadir info]> ∅)) in
  let report := <["Bzz account" := bzzAccount info]> report in
  if negb (String.eqb (keyJSON info) "") then
    match Unmarshal (keyJSON info) with
    | inl addr => Ret (<["Bzz account" := Hex (HexToAddress addr)]> report)
    | inr err =>
      call (Log "error" "Failed to retrieve bzz address" [("err", LErr (Some err))]) ;;
      Ret report
    end
  else Ret report.
End Report.

(** ** Vocabulary of the further properties *)

(** Events that read the remote host or write the local log: the inspector,
    a command run inside a container, the port probe, a log line. *)
Definition isProbe (e : event) : bool :=
  match projT2 e with
  | InspectContainer _ _ => true
  | ClientRun _ cmd => prefixb "docker exec " cmd
  | CheckPort _ _ => true
  | Log _ _ _ => true
  | _ => false
  end.

(** The snapshot [checkSwarmNode] assembles from the inspected container,
    the outputs of the identity and genesis queries and the answers to the
    two optional reads. *)
Definition assembledSnapshot (client : sshClient) (infos : containerInfos)
    (idOut genesisOut : bytes) (key pass : bytes * option error) : swarmInfos :=
  let port := index 0 (portmap infos) (index "" (envvars infos) "PORT") in
  {| genesis := TrimSpace genesisOut;
     network := 0;
     datadir := index "" (volumes infos) "/root/.ethereum";
     peersTotal := fst (Atoi (index "" (envvars infos) "TOTAL_PEERS"));
     port := port;
     bzzPort := 0;
     enode := "";
     swarmenode := "enode://" +:+ Trim (TrimSpace idOut) dq +:+ "@" +:+ address client
                   +:+ ":" +:+ itoa port;
     bzzAccount := index "" (envvars infos) "BZZ_NAME";
     keyJSON := if is_Some_b (snd key) then "" else TrimSpace (fst key);
     keyPass := if is_Some_b (snd pass) then "" else TrimSpace (fst pass) |}.

(** An operator on a host without a node. The state is the number of
    events answered; the account is refused as long as fewer than
    [refusals] events have been answered, and given from then on. *)
Definition hesitant (refusals : nat) (a : Address) (upload : bytes * option error)
    : forall X, puppethE X -> nat -> X * nat :=
  fun X e n =>
    (match e in puppethE X0 return X0 with
     | ClientRun _ _ => ("", None)
     | ClientStream _ _ => None
     | ClientUpload _ _ => upload
     | InspectContainer _ _ => inr ErrNotFound
     | CheckPort _ _ => None
     | RandInt63 => 42
     | Log _ _ _ => tt
     | Printf _ => tt
     | SelectServer => "host1"
     | ReadString => "/data"
     | ReadDefaultString def => def
     | ReadDefaultInt def => def
     | ReadJSON => "{key}"
     | ReadPassword => "secret"
     | ReadAddress => if (n <? refusals)%nat then None else Some a
     | ReadDefaultAddress def => def
     | Sleep _ => tt
     | NetworkStats => tt
     end, S n).






(** A node that tells its identity and nothing else. *)
Definition genesislessNode : scenario :=
  {| sc_container := inl peersOnlyContainer;
     sc_run := fun cmd =>
       if containsb "admin.nodeInfo.id" cmd then (dq +:+ "abc" +:+ dq, None)
       else ("", Some (ErrRemoteCommandFailed "exit status 1"));
     sc_upload := ("", None);
     sc_stream := None;
     sc_checkPort := Some (ErrRemoteCommandFailed "connection refused");
     sc_rand := 42;
     sc_server := "host1";
     sc_typed := "";
     sc_address := None |}.

(** A node without credential files, behind a closed port. *)
Definition keylessNode : scenario :=
  {| sc_container := inl fullContainer;
     sc_run := fun cmd =>
       if containsb "admin.nodeInfo.id" cmd then (dq +:+ "abc" +:+ dq +:+ nl, None)
       else if containsb "/genesis.json" cmd then ("{old}" +:+ nl, None)
       else ("", Some (ErrRemoteCommandFailed "No such file or directory"));
     sc_upload := ("", None);
     sc_stream := None;
     sc_checkPort := Some (ErrRemoteCommandFailed "connection refused");
     sc_rand := 42;
     sc_server := "host1";
     sc_typed := "";
     sc_address := None |}.

Definition mergedSnapshot : swarmInfos :=
  {| genesis := "{new}"; network := 1337; datadir := "/data"; peersTotal := 50;
     port := 31000; bzzPort := 0; enode := "";
     swarmenode := "enode://abc@10.0.0.1:31000";
     bzzAccount := "0x123"; keyJSON := "{key}"; keyPass := "secret" |}.

(** * Properties *)

(** ** Facts about runs *)

Section RunFacts.
Context {St : Type}.
Variable handle : forall X, puppethE X -> St -> X * St.

Lemma run_unfold {R : Type} fuel (t : itree goE R) s tr :
  run handle (S fuel) t s tr =
  match observe t with
  | RetF r => Some (Returned r, s, tr)
  | TauF t' => run handle fuel t' s tr
  | VisF (inl1 (Panic msg)) _ => Some (Panicked msg, s, tr)
  | VisF (inr1 e') k =>
    let '(x, s') := handle _ e' s in run handle fuel (k x) s' (tr ++ [ev e'])%list
  end.
Proof. reflexivity. Qed.

Lemma observe_bind {R U : Type} (t : itree goE R) (k : R -> itree goE U) :
  observe (ITree.bind t k) =
  match observe t with
  | RetF r => observe (k r)
  | TauF t' => TauF (ITree.bind t' k)
  | VisF e h => VisF e (fun x => ITree.bind (h x) k)
  end.
Proof. simpl. destruct (observe t); reflexivity. Qed.

Lemma run_observe {R : Type} (t t' : itree goE R) fuel s tr :
  observe t = observe t' -> run handle fuel t s tr = run handle fuel t' s tr.
Proof. destruct fuel; simpl; [reflexivity | intros ->; reflexivity]. Qed.

Lemma run_ret {R : Type} (r : R) fuel s tr :
  run handle (S fuel) (Ret r) s tr = Some (Returned r, s, tr).
Proof. reflexivity. Qed.

Lemma run_call {X R : Type} (e : puppethE X) (k : X -> itree goE R) fuel s tr :
  run handle (S fuel) (ITree.bind (call e) k) s tr =
  run handle fuel (k (handle _ e s).1) (handle _ e s).2 (tr ++ [ev e])%list.
Proof.
  simpl. destruct (handle X e s) as [x s']. simpl.
  apply run_observe. reflexivity.
Qed.



Lemma run_mono {R : Type} fuel : forall (t : itree goE R) s tr res fuel',
  run handle fuel t s tr = Some res -> (fuel <= fuel')%nat -> run handle fuel' t s tr = Some res.
Proof.
  induction fuel as [|fuel IH]; intros t s tr res fuel' H Hle; [discriminate|].
  destruct fuel' as [|fuel']; [lia|].
  simpl in *. destruct (observe t) as [r|t'|X e k].
  - exact H.
  - apply IH; [exact H | lia].
  - destruct e as [p|e'].
    + exact H.
    + destruct (handle X e' s) as [x s']. apply IH; [exact H | lia].
Qed.

(** A returning computation followed by its continuation. *)
Lemma run_bind {R U : Type} (k : R -> itree goE U) f : forall (t : itree goE R) s tr r s1 tr1 g res,
  run handle f t s tr = Some (Returned r, s1, tr1) ->
  run handle g (k r) s1 tr1 = Some res ->
  run handle (f + g) (ITree.bind t k) s tr = Some res.
Proof.
  induction f as [|f IH]; intros t s tr r s1 tr1 g res Ht Hk; [discriminate|].
  change (S f + g)%nat with (S (f + g)).
  rewrite run_unfold in Ht. rewrite run_unfold, observe_bind.
  destruct (observe t) as [r0|t'|X e h].
  - injection Ht as -> -> ->.
    apply run_mono with (fuel' := S (f + g)) in Hk; [|lia].
    rewrite run_unfold in Hk. exact Hk.
  - eapply IH; eassumption.
  - destruct e as [p|e'].
    + destruct p. discriminate.
    + destruct (handle X e' s) as [x s']. eapply IH; eassumption.
Qed.

Lemma run_bind_ret {R U : Type} (r : R) (k : R -> itree goE U) fuel s tr :
  run handle fuel (ITree.bind (Ret r) k) s tr = run handle fuel (k r) s tr.
Proof. apply run_observe. reflexivity. Qed.

(** Sequencing associates, node for node. *)
Lemma run_bind_bind {R U V : Type} (k1 : R -> itree goE U) (k2 : U -> itree goE V) fuel :
  forall (t : itree goE R) s tr,
  run handle fuel (ITree.bind (ITree.bind t k1) k2) s tr =
  run handle fuel (ITree.bind t (fun x => ITree.bind (k1 x) k2)) s tr.
Proof.
  induction fuel as [|fuel IH]; intros t s tr; [reflexivity|].
  rewrite !run_unfold.
  rewrite (observe_bind (ITree.bind t k1) k2), (observe_bind t k1),
    (observe_bind t (fun x => ITree.bind (k1 x) k2)).
  destruct (observe t) as [r|t'|X e h].
  - rewrite observe_bind. reflexivity.
  - apply IH.
  - destruct e as [[msg]|e']; [reflexivity|].
    destruct (handle X e' s) as [x s']. apply IH.
Qed.
End RunFacts.


(** The account loop, one question at a time. *)
Section AccountLoop.
Context {St : Type}.
Variable handle : forall X, puppethE X -> St -> X * St.

Lemma readBzzAccount_given {R : Type} (k : Address -> itree goE R) fuel s s' tr a :
  handle _ ReadAddress s = (Some a, s') ->
  run handle (S fuel) (ITree.bind readBzzAccount k) s tr =
  run handle fuel (k a) s' (tr ++ [ev ReadAddress])%list.
Proof.
  intros H. rewrite run_unfold, observe_bind. unfold readBzzAccount. cbn.
  rewrite H. apply run_observe. reflexivity.
Qed.

Lemma readBzzAccount_refused {R : Type} (k : Address -> itree goE R) fuel s s' tr :
  handle _ ReadAddress s = (None, s') ->
  run handle (S (S fuel)) (ITree.bind readBzzAccount k) s tr =
  run handle fuel (ITree.bind readBzzAccount k) s' (tr ++ [ev ReadAddress])%list.
Proof.
  intros H. rewrite run_unfold, observe_bind. unfold readBzzAccount. cbn.
  rewrite H. reflexivity.
Qed.
End AccountLoop.

(** ** The deployment sequence *)

(** C6. When the upload fails, [deploySwarm] returns the channel's output
    and error right after the upload and issues no further command. When
    the upload succeeds it streams the build command, then issues the
    removal of the scratch directory, and returns the stream's error
    (whatever the removal answered). *)
Theorem deploySwarm_cleanup_after_upload
    {St : Type} (handle : forall X, puppethE X -> St -> X * St)
    (client : sshClient) (network : string) (swarmboot : list string)
    (config : swarmInfos) (nocache : bool)
    (s0 s1 s2 s3 s4 : St) (r : Z) (out : bytes) (uerr serr : option error)
    (rm : bytes * option error) :
  handle _ RandInt63 s0 = (r, s1) ->
  handle _ (ClientUpload client (deployFiles (itoa r) network swarmboot config)) s1
    = ((out, uerr), s2) ->
  handle _ (ClientStream client (buildCommand (itoa r) network nocache)) s2 = (serr, s3) ->
  handle _ (ClientRun client ("rm -rf " +:+ itoa r)) s3 = (rm, s4) ->
  run handle 5 (deploySwarm client network swarmboot config nocache) s0 [] =
  Some match uerr with
       | Some e =>
         (Returned (out, Some e), s2,
          [ev RandInt63;
           ev (ClientUpload client (deployFiles (itoa r) network swarmboot config))])
       | None =>
         (Returned ("", serr), s4,
          [ev RandInt63;
           ev (ClientUpload client (deployFiles (itoa r) network swarmboot config));
           ev (ClientStream client (buildCommand (itoa r) network nocache));
           ev (ClientRun client ("rm -rf " +:+ itoa r))])
       end.
Proof.
  intros Hrand Hup Hstream Hrm. unfold deploySwarm.
  rewrite run_call, Hrand. cbn [fst snd].
  rewrite run_call, Hup. cbn [fst snd].
  destruct uerr as [e|].
  - rewrite run_ret. reflexivity.
  - unfold defer. rewrite run_bind_bind, run_call, Hstream. cbn [fst snd].
    rewrite run_bind_ret, run_call, Hrm. cbn [fst snd].
    rewrite run_ret. reflexivity.
Qed.

(** ** The status check *)

(** C1, as the code has it. Whatever error the container inspector
    reports, [ErrNotFound] included, [checkSwarmNode] hands back unchanged
    with a nil snapshot and issues no further command; [ErrServiceOffline]
    is its answer to a container that exists and is not running. *)
Theorem checkSwarmNode_inspector_error_passed_on
    {St : Type} (handle : forall X, puppethE X -> St -> X * St)
    (client : sshClient) (network : string) (boot : bool)
    (s0 s1 : St) (found : containerInfos + error) :
  handle _ (InspectContainer client (checkContainer network boot)) s0 = (found, s1) ->
  match found with
  | inr e =>
    run handle 2 (checkSwarmNode client network boot) s0 [] =
    Some (Returned (None, Some e), s1,
          [ev (InspectContainer client (checkContainer network boot))])
  | inl infos =>
    running infos = false ->
    run handle 2 (checkSwarmNode client network boot) s0 [] =
    Some (Returned (None, Some ErrServiceOffline), s1,
          [ev (InspectContainer client (checkContainer network boot))])
  end.
Proof.
  intros Hinspect. unfold checkSwarmNode.
  destruct found as [infos|e].
  - intros Hrun. rewrite run_call, Hinspect. cbn [fst snd].
    rewrite Hrun. cbn [negb]. rewrite run_ret. reflexivity.
  - rewrite run_call, Hinspect. cbn [fst snd]. rewrite run_ret. reflexivity.
Qed.

(** C10. On a running container whose node-identity query fails, the
    check returns [ErrServiceUnreachable] and a nil snapshot, right after
    that query. *)
Theorem checkSwarmNode_identity_query_fails
    {St : Type} (handle : forall X, puppethE X -> St -> X * St)
    (client : sshClient) (network : string) (boot : bool)
    (s0 s1 s2 : St) (infos : containerInfos) (out : bytes) (e : error) :
  handle _ (InspectContainer client (checkContainer network boot)) s0 = (inl infos, s1) ->
  running infos = true ->
  handle _ (ClientRun client (dockerExec network boot
              "geth --exec admin.nodeInfo.id attach /root/.ethereum/bzzd.ipc")) s1
    = ((out, Some e), s2) ->
  run handle 3 (checkSwarmNode client network boot) s0 [] =
  Some (Returned (None, Some ErrServiceUnreachable), s2,
        [ev (InspectContainer client (checkContainer network boot));
         ev (ClientRun client (dockerExec network boot
              "geth --exec admin.nodeInfo.id attach /root/.ethereum/bzzd.ipc"))]).
Proof.
  intros Hinspect Hrun Hid. unfold checkSwarmNode.
  rewrite run_call, Hinspect. cbn [fst snd].
  rewrite Hrun. cbn [negb].
  rewrite run_call, Hid. cbn [fst snd is_Some_b].
  rewrite run_ret. reflexivity.
Qed.

(** What a successful check returns: the fields of the snapshot in terms of
    the inspected container and the two mandatory queries. *)
Lemma checkSwarmNode_snapshot
    {St : Type} (handle : forall X, puppethE X -> St -> X * St)
    (client : sshClient) (net : string) (boot : bool)
    (s0 s1 s2 s3 : St) (infos : containerInfos) (out1 out2 : bytes) :
  handle _ (InspectContainer client (checkContainer net boot)) s0 = (inl infos, s1) ->
  running infos = true ->
  handle _ (ClientRun client (dockerExec net boot
              "geth --exec admin.nodeInfo.id attach /root/.ethereum/bzzd.ipc")) s1
    = ((out1, None), s2) ->
  handle _ (ClientRun client (dockerExec net boot "cat /genesis.json")) s2
    = ((out2, None), s3) ->
  exists stats s' tr,
    run handle 8 (checkSwarmNode client net boot) s0 [] =
      Some (Returned (Some stats, None), s', tr) /\
    genesis stats = TrimSpace out2 /\
    network stats = 0 /\
    bzzPort stats = 0 /\
    datadir stats = index "" (volumes infos) "/root/.ethereum" /\
    peersTotal stats = fst (Atoi (index "" (envvars infos) "TOTAL_PEERS")) /\
    port stats = index 0 (portmap infos) (index "" (envvars infos) "PORT") /\
    bzzAccount stats = index "" (envvars infos) "BZZ_NAME".
Proof.
  intros Hinspect Hrun Hid Hgen. unfold checkSwarmNode.
  rewrite run_call, Hinspect. cbn [fst snd].
  rewrite Hrun. cbn [negb].
  rewrite run_call, Hid. cbn [fst snd is_Some_b].
  rewrite run_call, Hgen. cbn [fst snd is_Some_b].
  rewrite run_call, run_call, run_call.
  match goal with
  | |- context [is_Some_b ?e] =>
    match e with
    | context [CheckPort] => destruct (is_Some_b e)
    end
  end.
  - rewrite run_call, run_ret. do 3 eexists. repeat split.
  - rewrite run_bind_ret, run_ret. do 3 eexists. repeat split.
Qed.

(** C7, as the code has it. A running container whose environment is
    exactly TOTAL_PEERS=50 and whose port mapping is exactly 30303 to 31000
    yields a snapshot with peer count 50 and port 0: the port is looked up
    under the value of the PORT variable, which this environment lacks. *)
Theorem checkSwarmNode_total_peers_without_port
    {St : Type} (handle : forall X, puppethE X -> St -> X * St)
    (client : sshClient) (network : string) (boot : bool)
    (s0 s1 s2 s3 : St) (infos : containerInfos) (out1 out2 : bytes) :
  handle _ (InspectContainer client (checkContainer network boot)) s0 = (inl infos, s1) ->
  running infos = true ->
  envvars infos = {[ "TOTAL_PEERS" := "50" ]} ->
  portmap infos = {[ "30303" := 31000 ]} ->
  handle _ (ClientRun client (dockerExec network boot
              "geth --exec admin.nodeInfo.id attach /root/.ethereum/bzzd.ipc")) s1
    = ((out1, None), s2) ->
  handle _ (ClientRun client (dockerExec network boot "cat /genesis.json")) s2
    = ((out2, None), s3) ->
  exists stats s' tr,
    run handle 8 (checkSwarmNode client network boot) s0 [] =
      Some (Returned (Some stats, None), s', tr) /\
    peersTotal stats = 50 /\
    port stats = 0.
Proof.
  intros Hinspect Hrun Henv Hports Hid Hgen.
  destruct (checkSwarmNode_snapshot handle client network boot s0 s1 s2 s3 infos out1 out2
              Hinspect Hrun Hid Hgen)
    as (stats & s' & tr & Hres & _ & _ & _ & _ & Hpeers & Hport & _).
  exists stats, s', tr. split; [exact Hres|].
  rewrite Hpeers, Hport, Henv, Hports. split; reflexivity.
Qed.

(** ** Rendering *)

Lemma append_cons (c : ascii) (a b : string) : String c a +:+ b = String c (a +:+ b).
Proof. reflexivity. Qed.

Lemma append_nil_r (s : string) : s +:+ "" = s.
Proof. induction s as [|c s IH]; [reflexivity|]. rewrite append_cons, IH. reflexivity. Qed.

Lemma append_assoc (a b c : string) : (a +:+ b) +:+ c = a +:+ (b +:+ c).
Proof.
  induction a as [|x a IH]; [reflexivity|].
  rewrite !append_cons, IH. reflexivity.
Qed.

(** Both templates are well formed. *)
Lemma swarmDockerfile_parses : is_Some (Parse swarmDockerfile).
Proof. vm_compute. eexists. reflexivity. Qed.

Lemma swarmComposefile_parses : is_Some (Parse swarmComposefile).
Proof. vm_compute. eexists. reflexivity. Qed.

Lemma swarmDockerfile_template :
  Must (Parse swarmDockerfile) =
  [NText dockerfileHead; NField "NetworkID"; NText " ";
   NIf "BzzAccount" [NText "--bzzaccount "; NField "BzzAccount"; NText " "];
   NText "--port "; NField "Port"; NText " --bzzport "; NField "bzzPort";
   NText " --maxpeers "; NField "Peers"; NText " ";
   NIf "SwarmBoot" [NText "--bootnodes "; NField "SwarmBoot"];
   NText dockerfileTail].
Proof. vm_compute. reflexivity. Qed.

(** The rendered build recipe, piece by piece. *)
Lemma renderDockerfile_eq (swarmboot : list string) (config : swarmInfos) :
  renderDockerfile swarmboot config =
  dockerfileHead +:+ itoa (network config) +:+ " "
  +:+ accountFlag (bzzAccount config)
  +:+ "--port " +:+ itoa (port config)
  +:+ " --bzzport " +:+ itoa (bzzPort config)
  +:+ " --maxpeers " +:+ itoa (peersTotal config) +:+ " "
  +:+ bootnodesFlag (Join (deployBootnodes swarmboot config) ",")
  +:+ dockerfileTail.
Proof.
  unfold renderDockerfile. rewrite swarmDockerfile_template.
  unfold dockerfileData. cbn [Execute execNode].
  simplify_map_eq. cbn [printValue truth].
  unfold accountFlag, bootnodesFlag.
  destruct (String.eqb (bzzAccount config) ""),
           (String.eqb (Join (deployBootnodes swarmboot config) ",") "");
    cbn [negb]; rewrite ?append_nil_r, ?append_assoc; reflexivity.
Qed.

Lemma swarmComposefile_template :
  Must (Parse swarmComposefile) =
  [NText (nl +:+ "version: '2'" +:+ nl +:+ "services:" +:+ nl +:+ "  ");
   NField "Type";
   NText (":" +:+ nl +:+ "    build: ." +:+ nl +:+ "    image: ");
   NField "Network"; NText "/"; NField "Type";
   NText (nl +:+ "    ports:" +:+ nl +:+ "      - " +:+ dq);
   NField "Port"; NText ":"; NField "Port";
   NText (dq +:+ nl +:+ "      - " +:+ dq);
   NField "Port"; NText ":"; NField "Port";
   NText ("/udp" +:+ dq +:+ nl +:+ "    volumes:" +:+ nl +:+ "      - ");
   NField "Datadir";
   NText (":/root/.ethereum" +:+ nl +:+ "    environment:" +:+ nl +:+ "      - PORT=");
   NField "bzzPort";
   NText ("/tcp" +:+ nl
          +:+ "    logging:" +:+ nl
          +:+ "      driver: " +:+ dq +:+ "json-file" +:+ dq +:+ nl
          +:+ "      options:" +:+ nl
          +:+ "        max-size: " +:+ dq +:+ "1m" +:+ dq +:+ nl
          +:+ "        max-file: " +:+ dq +:+ "10" +:+ dq +:+ nl
          +:+ "    restart: always" +:+ nl)].
Proof. vm_compute. reflexivity. Qed.

(** C4. The composition descriptor declares the one service named after
    the role and publishes the listen port over TCP and over UDP, as
    claimed. The bzz port is not published: the ports section has no third
    entry, and where the template does read [.bzzPort], in the PORT entry
    of the environment section, it prints [<no value>], because the data
    [deploySwarm] passes to this template has no [bzzPort] key. So the
    descriptor is the same whatever the bzz port of the configuration. *)
Theorem renderComposefile_service_and_ports (net : string) (config : swarmInfos) :
  renderComposefile net config =
    composeService (deployKind config) net (port config) (datadir config) +:+ composeTail /\
  composefileData (deployKind config) net config !! "bzzPort" = None /\
  (forall b : Z, renderComposefile net (set_bzzPort b config) = renderComposefile net config).
Proof.
  assert (Hshape : forall c : swarmInfos,
            renderComposefile net c =
            composeService (deployKind c) net (port c) (datadir c) +:+ composeTail).
  { intros c. unfold renderComposefile. rewrite swarmComposefile_template.
    unfold composefileData. cbn [Execute execNode].
    simplify_map_eq. cbn [printValue].
    unfold composeService, composeTail.
    rewrite ?append_nil_r, ?append_assoc. reflexivity. }
  split; [apply Hshape|]. split.
  - unfold composefileData. simplify_map_eq. reflexivity.
  - intros b. rewrite !Hshape. reflexivity.
Qed.

(** ** Substrings *)

Lemma prefixb_spec (p s : string) : prefixb p s = true <-> exists b, s = p +:+ b.
Proof.
  revert s. induction p as [|x p IH]; intros s; cbn [prefixb].
  - split; [intros _; exists s; reflexivity | reflexivity].
  - destruct s as [|y s].
    + split; [discriminate | intros [b Hb]; discriminate].
    + destruct (Ascii.eqb_spec x y) as [->|Hne].
      * rewrite IH. split; intros [b Hb]; exists b.
        -- rewrite append_cons, Hb. reflexivity.
        -- rewrite append_cons in Hb. injection Hb as Hb. exact Hb.
      * split; [discriminate|]. intros [b Hb]. rewrite append_cons in Hb.
        injection Hb as Hxy _. congruence.
Qed.

Lemma containsb_spec (p s : string) : containsb p s = true <-> occurs p s.
Proof.
  unfold occurs. induction s as [|y s IH]; cbn [containsb].
  - rewrite orb_false_r, prefixb_spec. split.
    + intros [b Hb]. exists "", b. exact Hb.
    + intros (a & b & Hab). destruct a as [|x a]; [exists b; exact Hab | discriminate].
  - rewrite orb_true_iff, prefixb_spec, IH. split.
    + intros [[b Hb] | (a & b & Hab)].
      * exists "", b. exact Hb.
      * exists (String y a), b. rewrite append_cons, Hab. reflexivity.
    + intros (a & b & Hab). destruct a as [|x a].
      * left. exists b. exact Hab.
      * right. rewrite append_cons in Hab. injection Hab as _ Hab.
        exists a, b. exact Hab.
Qed.

Lemma occurs_containsb_false (p s : string) : containsb p s = false -> ~ occurs p s.
Proof. intros H Hocc. apply containsb_spec in Hocc. congruence. Qed.

(** A character that is not in the pattern cuts every search in two. *)
Lemma prefixb_sep (c : ascii) (p : string) :
  mem c p = false -> forall a b, prefixb p (a +:+ String c "" +:+ b) = prefixb p a.
Proof.
  induction p as [|x p IH]; intros Hc a b; [reflexivity|].
  cbn [mem] in Hc. apply orb_false_elim in Hc as [Hcx Hcp].
  destruct a as [|y a].
  - change ("" +:+ String c "" +:+ b) with (String c b). cbn [prefixb].
    rewrite Ascii.eqb_sym, Hcx. reflexivity.
  - rewrite append_cons. cbn [prefixb]. rewrite IH by exact Hcp. reflexivity.
Qed.

Lemma containsb_sep (c : ascii) (p : string) :
  mem c p = false -> forall a b,
  containsb p (a +:+ String c "" +:+ b) = containsb p a || containsb p b.
Proof.
  intros Hc a b. induction a as [|y a IH].
  - change ("" +:+ String c "" +:+ b) with (String c b). cbn [containsb].
    change (String c b) with ("" +:+ String c "" +:+ b) at 1.
    rewrite prefixb_sep by exact Hc. rewrite orb_false_r. reflexivity.
  - rewrite append_cons. cbn [containsb].
    change (String y (a +:+ String c "" +:+ b)) with (String y a +:+ String c "" +:+ b).
    rewrite prefixb_sep by exact Hc. rewrite IH, orb_assoc. reflexivity.
Qed.

(** A pattern with a character the text lacks does not occur in it. *)
Lemma prefixb_mem (x : ascii) (p s : string) :
  mem x p = true -> prefixb p s = true -> mem x s = true.
Proof.
  revert s. induction p as [|a p IH]; intros s Hx Hp; [discriminate|].
  destruct s as [|b s]; [discriminate|]. cbn [prefixb] in Hp.
  destruct (Ascii.eqb_spec a b) as [->|]; [|discriminate].
  cbn [mem] in *. destruct (Ascii.eqb x b); [reflexivity|].
  cbn [orb] in *. apply IH; assumption.
Qed.

Lemma containsb_mem (x : ascii) (p s : string) :
  mem x p = true -> mem x s = false -> containsb p s = false.
Proof.
  intros Hx. induction s as [|b s IH]; intros Hs; cbn [containsb].
  - rewrite orb_false_r. destruct (prefixb p "") eqn:Hp; [|reflexivity].
    apply (prefixb_mem x) in Hp; [discriminate | exact Hx].
  - destruct (prefixb p (String b s)) eqn:Hp.
    + apply (prefixb_mem x) in Hp; [congruence | exact Hx].
    + cbn [mem] in Hs. apply orb_false_elim in Hs as [_ Hs]. cbn [orb]. apply IH, Hs.
Qed.

(** Decimal numerals are made of digits and at most a sign. *)
Lemma string_of_uint_digits (d : Decimal.uint) (c : ascii) :
  mem c (NilEmpty.string_of_uint d) = true -> isDigit c = true.
Proof.
  induction d as [|d IH|d IH|d IH|d IH|d IH|d IH|d IH|d IH|d IH|d IH];
    cbn [NilEmpty.string_of_uint mem]; [discriminate|..];
    (intros H; apply orb_true_iff in H as [H|H];
     [apply Ascii.eqb_eq in H; subst c; reflexivity | apply IH, H]).
Qed.

Lemma itoa_chars (z : Z) (c : ascii) :
  mem c (itoa z) = true -> isDigit c = true \/ c = "-"%char.
Proof.
  unfold itoa. destruct (Z.to_int z) as [d|d]; cbn [NilEmpty.string_of_int].
  - intros H. left. eapply string_of_uint_digits, H.
  - cbn [mem]. intros H. apply orb_true_iff in H as [H|H].
    + right. apply Ascii.eqb_eq, H.
    + left. eapply string_of_uint_digits, H.
Qed.

Lemma itoa_no_letter (z : Z) (c : ascii) :
  isDigit c = false -> c <> "-"%char -> mem c (itoa z) = false.
Proof.
  intros Hd Hm. destruct (mem c (itoa z)) eqn:H; [|reflexivity].
  apply itoa_chars in H as [H|H]; congruence.
Qed.

(** ** The build recipe and the bootstrap peers *)

Lemma renderDockerfile_peers (swarmboot : list string) (config : swarmInfos) :
  renderDockerfile swarmboot config =
  recipeBeforePeers config
  +:+ bootnodesFlag (Join (deployBootnodes swarmboot config) ",")
  +:+ dockerfileTail.
Proof.
  rewrite renderDockerfile_eq. unfold recipeBeforePeers.
  rewrite ?append_assoc. reflexivity.
Qed.

(** The comma-join is empty only for no peer at all or one empty peer. *)
Lemma Join_comma_empty (l : list string) : Join l "," = "" <-> l = [] \/ l = [""].
Proof.
  split.
  - destruct l as [|x [|y l]]; cbn [Join]; intros H.
    + left. reflexivity.
    + right. rewrite H. reflexivity.
    + destruct x; discriminate.
  - intros [-> | ->]; reflexivity.
Qed.

Lemma recipeBeforePeers_no_bootnodes (config : swarmInfos) :
  containsb "--bootnodes" (bzzAccount config) = false ->
  containsb "--bootnodes" (recipeBeforePeers config +:+ dockerfileTail) = false.
Proof.
  intros Hacct.
  assert (Hnum : forall z, containsb "--bootnodes" (itoa z) = false).
  { intros z. apply (containsb_mem "b"); [reflexivity|].
    apply itoa_no_letter; [reflexivity | discriminate]. }
  set (cut := String " " "").
  assert (Hshape : recipeBeforePeers config +:+ dockerfileTail =
    (dockerfileHead +:+ itoa (network config)) +:+ cut +:+
    (accountFlag (bzzAccount config) +:+ "--port") +:+ cut +:+
    itoa (port config) +:+ cut +:+ "--bzzport" +:+ cut +:+
    itoa (bzzPort config) +:+ cut +:+ "--maxpeers" +:+ cut +:+
    itoa (peersTotal config) +:+ cut +:+ dockerfileTail).
  { unfold recipeBeforePeers, cut. rewrite ?append_assoc. reflexivity. }
  rewrite Hshape. unfold cut.
  rewrite !containsb_sep by reflexivity. rewrite !Hnum.
  assert (Hhead : containsb "--bootnodes" (dockerfileHead +:+ itoa (network config)) = false).
  { assert (Hcut : dockerfileHead +:+ itoa (network config) =
      (nl +:+ "FROM ethereum/client-go:alltools-v1.8.3" +:+ nl
       +:+ nl
       +:+ "ADD genesis.json /genesis.json" +:+ nl
       +:+ "ADD bzzkey.json /bzzkey.json" +:+ nl
       +:+ "ADD bzzpass /bzzpass" +:+ nl
       +:+ nl
       +:+ "RUN \" +:+ nl
       +:+ tab +:+ "echo 'mkdir -p /root/.ethereum/keystore/ && cp /bzzkey.json /root/.ethereum/keystore/' > geth.sh && \" +:+ nl
       +:+ tab +:+ "echo $'swarm --bzznetworkid") +:+ String " " "" +:+ itoa (network config))
      by reflexivity.
    rewrite Hcut, containsb_sep by reflexivity. rewrite Hnum. reflexivity. }
  assert (Hflag : containsb "--bootnodes" (accountFlag (bzzAccount config) +:+ "--port") = false).
  { unfold accountFlag. destruct (String.eqb (bzzAccount config) ""); [reflexivity|].
    change ("--bzzaccount " +:+ bzzAccount config +:+ " ")
      with ("--bzzaccount" +:+ String " " "" +:+ bzzAccount config +:+ String " " "" +:+ "").
    rewrite !append_assoc, !containsb_sep by reflexivity.
    rewrite Hacct. reflexivity. }
  rewrite Hhead, Hflag. reflexivity.
Qed.

(** C8. With no node identity in the configuration the role is bootstrap:
    the supplied peer list is dropped, the build recipe has nothing between
    the peer cap and the password file, and [--bootnodes] occurs nowhere in
    it unless the account field itself spells it. *)
Theorem bootstrap_recipe_has_no_bootnodes (swarmboot : list string) (config : swarmInfos) :
  swarmenode config = "" ->
  deployBootnodes swarmboot config = [] /\
  renderDockerfile swarmboot config = recipeBeforePeers config +:+ dockerfileTail /\
  (~ occurs "--bootnodes" (bzzAccount config) ->
   ~ occurs "--bootnodes" (renderDockerfile swarmboot config)).
Proof.
  intros Hboot.
  assert (Hnone : deployBootnodes swarmboot config = []).
  { unfold deployBootnodes. rewrite Hboot. reflexivity. }
  assert (Hrender : renderDockerfile swarmboot config
                    = recipeBeforePeers config +:+ dockerfileTail).
  { rewrite renderDockerfile_peers, Hnone. reflexivity. }
  split; [exact Hnone|]. split; [exact Hrender|].
  intros Hacct. rewrite Hrender.
  apply occurs_containsb_false, recipeBeforePeers_no_bootnodes.
  destruct (containsb "--bootnodes" (bzzAccount config)) eqn:Hc; [|reflexivity].
  exfalso. apply Hacct, containsb_spec, Hc.
Qed.

(** C9. With a node identity the role is peer: the build recipe carries
    the comma-join of the supplied peers, in their order, after
    [--bootnodes] (the flag is left out when that join is empty, which for
    a non-empty list means the single empty peer). *)
Theorem peer_recipe_joins_bootnodes (swarmboot : list string) (config : swarmInfos) :
  swarmenode config <> "" ->
  swarmboot <> [] ->
  renderDockerfile swarmboot config =
  recipeBeforePeers config
  +:+ (if String.eqb (Join swarmboot ",") "" then ""
       else "--bootnodes " +:+ Join swarmboot ",")
  +:+ dockerfileTail.
Proof.
  intros Hpeer _. rewrite renderDockerfile_peers.
  unfold deployBootnodes, bootnodesFlag.
  destruct (String.eqb_spec (swarmenode config) ""); [contradiction | reflexivity].
Qed.

(** ** The uploaded files *)

Lemma filepath_Join_inj (dir a b : string) :
  filepath_Join dir a = filepath_Join dir b -> a = b.
Proof.
  unfold filepath_Join. intros H.
  apply (inj (String.append dir)) in H. apply (inj (String.append "/")) in H. exact H.
Qed.

Lemma deployFiles_Dockerfile (workdir net : string) (swarmboot : list string)
    (config : swarmInfos) :
  deployFiles workdir net swarmboot config !! filepath_Join workdir "Dockerfile"
  = Some (renderDockerfile swarmboot config).
Proof.
  unfold deployFiles.
  destruct (negb (String.eqb (keyJSON config) ""));
    repeat (rewrite lookup_insert_ne
              by (intros H; apply filepath_Join_inj in H; discriminate));
    apply lookup_insert_eq.
Qed.

Lemma deployFiles_composefile (workdir net : string) (swarmboot : list string)
    (config : swarmInfos) :
  deployFiles workdir net swarmboot config !! filepath_Join workdir "docker-compose.yaml"
  = Some (renderComposefile net config).
Proof.
  unfold deployFiles.
  destruct (negb (String.eqb (keyJSON config) ""));
    repeat (rewrite lookup_insert_ne
              by (intros H; apply filepath_Join_inj in H; discriminate));
    apply lookup_insert_eq.
Qed.

(** C5, as the code has it. The build recipe and the composition
    descriptor that are uploaded do not depend on the passphrase: they are
    the same bytes for any two passphrases. *)
Theorem uploaded_recipes_ignore_passphrase (workdir net : string) (swarmboot : list string)
    (config : swarmInfos) (pass1 pass2 : string) :
  deployFiles workdir net swarmboot (set_keyPass pass1 config)
    !! filepath_Join workdir "Dockerfile"
  = deployFiles workdir net swarmboot (set_keyPass pass2 config)
    !! filepath_Join workdir "Dockerfile" /\
  deployFiles workdir net swarmboot (set_keyPass pass1 config)
    !! filepath_Join workdir "docker-compose.yaml"
  = deployFiles workdir net swarmboot (set_keyPass pass2 config)
    !! filepath_Join workdir "docker-compose.yaml".
Proof.
  rewrite !deployFiles_Dockerfile, !deployFiles_composefile.
  split; reflexivity.
Qed.

(** With credentials in the configuration the passphrase travels as the
    file the recipe names. *)
Lemma deployFiles_bzzpass (workdir net : string) (swarmboot : list string)
    (config : swarmInfos) :
  keyJSON config <> "" ->
  deployFiles workdir net swarmboot config !! filepath_Join workdir "bzzpass"
  = Some (keyPass config).
Proof.
  intros Hkey. unfold deployFiles.
  destruct (String.eqb_spec (keyJSON config) ""); [contradiction|].
  cbn [negb]. apply lookup_insert_eq.
Qed.

(** ** Container names *)

(** A peer node is probed under the name it was deployed with. *)
Lemma peer_probe_finds_deployed_container (net : string) (config : swarmInfos) :
  swarmenode config <> "" ->
  checkContainer net false = composeContainer net (deployKind config).
Proof.
  intros Hpeer. unfold checkContainer, composeContainer, deployKind.
  destruct (String.eqb_spec (swarmenode config) ""); [contradiction | reflexivity].
Qed.

(** C2. The check of a bootstrap node probes [<network>_bootswarm_1],
    while a bootstrap configuration is deployed as service [swarmboot] and
    so runs as [<network>_swarmboot_1]: the two names differ for every
    network. *)
Theorem bootstrap_probe_misses_deployed_container (net : string) (config : swarmInfos) :
  swarmenode config = "" ->
  checkContainer net true = net +:+ "_bootswarm_1" /\
  composeContainer net (deployKind config) = net +:+ "_swarmboot_1" /\
  checkContainer net true <> composeContainer net (deployKind config).
Proof.
  intros Hboot. unfold checkContainer, composeContainer, deployKind.
  rewrite Hboot. cbn [String.eqb checkKind negb].
  repeat split. intros H.
  apply (inj (String.append net)) in H. discriminate.
Qed.

(** ** Merging a snapshot with the operator's answers *)

(** The chain id is read before the first question: on a genesis without
    one the merge panics and the operator is asked nothing. *)
Lemma mergeSwarmInfos_panics_without_chain_id
    {St : Type} (handle : forall X, puppethE X -> St -> X * St)
    (Genesis : Type) (MarshalIndent : Genesis -> bytes) (ChainId : Genesis -> option Z)
    (Hex : Address -> string) (HexToAddress : string -> Address)
    (DecryptKey : string -> string -> bool)
    (g : Genesis) (snap : swarmInfos) (fuel : nat) (s0 : St) (tr : list event) :
  ChainId g = None ->
  run handle (S fuel)
    (mergeSwarmInfos Genesis MarshalIndent ChainId Hex HexToAddress DecryptKey g snap)
    s0 tr =
  Some (Panicked "invalid memory address or nil pointer dereference", s0, tr).
Proof.
  intros Hnil. unfold mergeSwarmInfos. rewrite Hnil. reflexivity.
Qed.


(** Reading a field of a snapshot that was updated field by field. *)
Ltac fields :=
  cbn [genesis network datadir peersTotal port bzzPort enode swarmenode bzzAccount
       keyJSON keyPass
       set_genesis set_network set_datadir set_port set_bzzPort set_peersTotal
       set_keyJSON set_keyPass set_bzzAccount].





(** Every field of the merged record, spelled out. *)
Ltac merge_fields :=
  cbv beta iota delta
    [genesis network datadir peersTotal port bzzPort enode swarmenode bzzAccount
     keyJSON keyPass
     set_genesis set_network set_datadir set_port set_bzzPort set_peersTotal
     set_keyJSON set_keyPass set_bzzAccount].


(** ** Concrete runs *)

(** C1 at a container that does not exist: the check of network testnet
    returns the inspector's [ErrNotFound], which is not
    [ErrServiceOffline]. *)
Lemma checkSwarmNode_notfound_is_not_offline :
  sc_container (liveNode (inr ErrNotFound)) = inr ErrNotFound /\
  returned (run (play (liveNode (inr ErrNotFound))) 2
              (checkSwarmNode testClient "testnet" true) 0%nat [])
    = Some (None, Some ErrNotFound) /\
  Some ErrNotFound <> Some ErrServiceOffline.
Proof. repeat split. discriminate. Qed.

Lemma checkSwarmNode_inspector_error_passed_on_witness :
  run (play (liveNode (inr ErrNotFound))) 2
    (checkSwarmNode testClient "testnet" true) 0%nat [] =
  Some (Returned (None, Some ErrNotFound), 1%nat,
        [ev (InspectContainer testClient (checkContainer "testnet" true))]).
Proof.
  exact (checkSwarmNode_inspector_error_passed_on (play (liveNode (inr ErrNotFound)))
           testClient "testnet" true 0%nat 1%nat (inr ErrNotFound) eq_refl).
Defined.

Lemma bootstrap_probe_misses_deployed_container_witness :
  checkContainer "testnet" true = "testnet_bootswarm_1" /\
  composeContainer "testnet" (deployKind testConfig) = "testnet_swarmboot_1" /\
  checkContainer "testnet" true <> composeContainer "testnet" (deployKind testConfig).
Proof.
  exact (bootstrap_probe_misses_deployed_container "testnet" testConfig eq_refl).
Defined.



(** C4 at network testnet, listen port 30399 and bzz port 8500: the
    descriptor publishes 30399 twice and mentions 8500 nowhere. *)
Lemma renderComposefile_omits_bzzPort :
  bzzPort testConfig = 8500 /\
  containsb (itoa (port testConfig) +:+ ":" +:+ itoa (port testConfig) +:+ dq)
            (renderComposefile "testnet" testConfig) = true /\
  containsb (itoa (port testConfig) +:+ ":" +:+ itoa (port testConfig) +:+ "/udp" +:+ dq)
            (renderComposefile "testnet" testConfig) = true /\
  ~ occurs (itoa (bzzPort testConfig)) (renderComposefile "testnet" testConfig).
Proof.
  repeat split. apply occurs_containsb_false. reflexivity.
Qed.

(** C5 at the passphrase [root], with a key in the configuration: the
    passphrase occurs in both rendered texts, which name the directory
    /root/.ethereum. *)
Lemma passphrase_may_occur_in_recipes :
  keyJSON testConfig <> "" /\
  keyPass testConfig = "root" /\
  occurs (keyPass testConfig) (renderDockerfile [] testConfig) /\
  occurs (keyPass testConfig) (renderComposefile "testnet" testConfig).
Proof.
  split; [discriminate|]. split; [reflexivity|].
  split; apply containsb_spec; reflexivity.
Qed.

Lemma deploySwarm_cleanup_after_upload_witness :
  run (play failingBuild) 5 (deploySwarm testClient "testnet" [] testConfig false) 0%nat [] =
  Some (Returned ("", Some (ErrRemoteCommandFailed "build failed")), 4%nat,
        [ev RandInt63;
         ev (ClientUpload testClient (deployFiles (itoa 42) "testnet" [] testConfig));
         ev (ClientStream testClient (buildCommand (itoa 42) "testnet" false));
         ev (ClientRun testClient ("rm -rf " +:+ itoa 42))]).
Proof.
  exact (deploySwarm_cleanup_after_upload (play failingBuild) testClient "testnet" []
           testConfig false 0%nat 1%nat 2%nat 3%nat 4%nat 42 "" None
           (Some (ErrRemoteCommandFailed "build failed"))
           ("", Some (ErrRemoteCommandFailed "rm: cannot remove"))
           eq_refl eq_refl eq_refl eq_refl).
Defined.

(** C7 at the container of the scenario: the snapshot has peer count 50 and
    port 0, not 31000. *)
Lemma checkSwarmNode_port_is_zero_without_PORT :
  envvars peersOnlyContainer = {[ "TOTAL_PEERS" := "50" ]} /\
  portmap peersOnlyContainer = {[ "30303" := 31000 ]} /\
  returned (run (play (liveNode (inl peersOnlyContainer))) 8
              (checkSwarmNode testClient "testnet" false) 0%nat [])
    = Some (Some {| genesis := "{old}"; network := 0; datadir := ""; peersTotal := 50;
                    port := 0; bzzPort := 0; enode := "";
                    swarmenode := "enode://abc@10.0.0.1:0"; bzzAccount := "";
                    keyJSON := "{key}"; keyPass := "secret" |}, None) /\
  (0 <> 31000)%Z.
Proof. repeat split. discriminate. Qed.

Lemma checkSwarmNode_total_peers_without_port_witness :
  exists stats s' tr,
    run (play (liveNode (inl peersOnlyContainer))) 8
      (checkSwarmNode testClient "testnet" false) 0%nat [] =
      Some (Returned (Some stats, None), s', tr) /\
    peersTotal stats = 50 /\
    port stats = 0.
Proof.
  apply (checkSwarmNode_total_peers_without_port (play (liveNode (inl peersOnlyContainer)))
           testClient "testnet" false 0%nat 1%nat 2%nat 3%nat peersOnlyContainer
           (dq +:+ "abc" +:+ dq +:+ nl) ("{old}" +:+ nl)); reflexivity.
Defined.

Lemma bootstrap_recipe_has_no_bootnodes_witness :
  deployBootnodes ["enode://a@1.1.1.1:30303"] testConfig = [] /\
  renderDockerfile ["enode://a@1.1.1.1:30303"] testConfig
    = recipeBeforePeers testConfig +:+ dockerfileTail /\
  ~ occurs "--bootnodes" (renderDockerfile ["enode://a@1.1.1.1:30303"] testConfig).
Proof.
  destruct (bootstrap_recipe_has_no_bootnodes ["enode://a@1.1.1.1:30303"] testConfig eq_refl)
    as (Hnone & Hrender & Hfree).
  split; [exact Hnone|]. split; [exact Hrender|].
  apply Hfree, occurs_containsb_false. reflexivity.
Defined.

Lemma peer_recipe_joins_bootnodes_witness :
  renderDockerfile ["enode://a@1.1.1.1:30303"; "enode://b@2.2.2.2:30303"] peerConfig =
  recipeBeforePeers peerConfig
  +:+ "--bootnodes enode://a@1.1.1.1:30303,enode://b@2.2.2.2:30303"
  +:+ dockerfileTail.
Proof.
  apply (peer_recipe_joins_bootnodes
           ["enode://a@1.1.1.1:30303"; "enode://b@2.2.2.2:30303"] peerConfig); discriminate.
Defined.

Lemma checkSwarmNode_identity_query_fails_witness :
  run (play muteNode) 3 (checkSwarmNode testClient "testnet" false) 0%nat [] =
  Some (Returned (None, Some ErrServiceUnreachable), 2%nat,
        [ev (InspectContainer testClient (checkContainer "testnet" false));
         ev (ClientRun testClient (dockerExec "testnet" false
               "geth --exec admin.nodeInfo.id attach /root/.ethereum/bzzd.ipc"))]).
Proof.
  exact (checkSwarmNode_identity_query_fails (play muteNode) testClient "testnet" false
           0%nat 1%nat 2%nat peersOnlyContainer "" (ErrRemoteCommandFailed "exit status 1")
           eq_refl eq_refl eq_refl).
Defined.

(** * Further properties *)

(** ** More on the status check *)

(** A run that has a result has fuel left for its next node. *)
Ltac run_inv_call H :=
  match type of H with
  | run _ ?f _ _ _ = Some _ =>
    destruct f; [discriminate H|]; rewrite run_call in H; cbn [fst snd] in H
  end.

Ltac run_inv_ret H :=
  match type of H with
  | run _ ?f _ _ _ = Some _ =>
    destruct f; [discriminate H|]; rewrite run_ret in H
  end.

(** X1. On a running container whose identity query succeeds and whose
    genesis read fails, the check returns [ErrServiceUnreachable] and a nil
    snapshot, and asks for nothing more. *)
Theorem checkSwarmNode_genesis_query_fails
    {St : Type} (handle : forall X, puppethE X -> St -> X * St)
    (client : sshClient) (net : string) (boot : bool)
    (s0 s1 s2 s3 : St) (infos : containerInfos) (out1 out2 : bytes) (e : error) :
  handle _ (InspectContainer client (checkContainer net boot)) s0 = (inl infos, s1) ->
  running infos = true ->
  handle _ (ClientRun client (dockerExec net boot
              "geth --exec admin.nodeInfo.id attach /root/.ethereum/bzzd.ipc")) s1
    = ((out1, None), s2) ->
  handle _ (ClientRun client (dockerExec net boot "cat /genesis.json")) s2
    = ((out2, Some e), s3) ->
  run handle 4 (checkSwarmNode client net boot) s0 [] =
  Some (Returned (None, Some ErrServiceUnreachable), s3,
        [ev (InspectContainer client (checkContainer net boot));
         ev (ClientRun client (dockerExec net boot
              "geth --exec admin.nodeInfo.id attach /root/.ethereum/bzzd.ipc"));
         ev (ClientRun client (dockerExec net boot "cat /genesis.json"))]).
Proof.
  intros Hinspect Hrun Hid Hgen. unfold checkSwarmNode.
  rewrite run_call, Hinspect. cbn [fst snd].
  rewrite Hrun. cbn [negb].
  rewrite run_call, Hid. cbn [fst snd is_Some_b].
  rewrite run_call, Hgen. cbn [fst snd is_Some_b].
  rewrite run_ret. reflexivity.
Qed.

Lemma checkSwarmNode_genesis_query_fails_witness :
  run (play genesislessNode) 4 (checkSwarmNode testClient "testnet" false) 0%nat [] =
  Some (Returned (None, Some ErrServiceUnreachable), 3%nat,
        [ev (InspectContainer testClient (checkContainer "testnet" false));
         ev (ClientRun testClient (dockerExec "testnet" false
              "geth --exec admin.nodeInfo.id attach /root/.ethereum/bzzd.ipc"));
         ev (ClientRun testClient (dockerExec "testnet" false "cat /genesis.json"))]).
Proof.
  apply (checkSwarmNode_genesis_query_fails (play genesislessNode) testClient "testnet" false
           0%nat 1%nat 2%nat 3%nat peersOnlyContainer (dq +:+ "abc" +:+ dq) ""
           (ErrRemoteCommandFailed "exit status 1")); reflexivity.
Defined.

(** X2. Against every environment the check ends within eight nodes, with
    either a snapshot and no error or an error and no snapshot, and all it
    did was probe: inspect the container, run commands inside it, test the
    port, write a log line. *)
Theorem checkSwarmNode_snapshot_xor_error
    {St : Type} (handle : forall X, puppethE X -> St -> X * St)
    (client : sshClient) (net : string) (boot : bool) (s0 : St) :
  exists res s' tr,
    run handle 8 (checkSwarmNode client net boot) s0 [] = Some (Returned res, s', tr) /\
    is_Some_b (fst res) = negb (is_Some_b (snd res)) /\
    forallb isProbe tr = true.
Proof.
  unfold checkSwarmNode. rewrite run_call.
  destruct (handle _ (InspectContainer client (checkContainer net boot)) s0)
    as [[infos|e] s1]; cbn [fst snd].
  2: { rewrite run_ret. do 3 eexists. repeat split. }
  destruct (running infos); cbn [negb].
  2: { rewrite run_ret. do 3 eexists. repeat split. }
  rewrite run_call.
  destruct (handle _ (ClientRun client (dockerExec net boot
              "geth --exec admin.nodeInfo.id attach /root/.ethereum/bzzd.ipc")) s1)
    as [[out1 [e1|]] s2]; cbn [fst snd is_Some_b].
  { rewrite run_ret. do 3 eexists. repeat split. }
  rewrite run_call.
  destruct (handle _ (ClientRun client (dockerExec net boot "cat /genesis.json")) s2)
    as [[out2 [e2|]] s3]; cbn [fst snd is_Some_b].
  { rewrite run_ret. do 3 eexists. repeat split. }
  rewrite run_call, run_call, run_call.
  match goal with
  | |- context [is_Some_b ?e] =>
    match e with
    | context [CheckPort] => destruct (is_Some_b e)
    end
  end.
  - rewrite run_call, run_ret. do 3 eexists. repeat split.
  - rewrite run_bind_ret, run_ret. do 3 eexists. repeat split.
Qed.

(** The snapshot of a successful check, with the answers to the optional
    reads named after the states they are given in. *)
Lemma checkSwarmNode_assembles
    {St : Type} (handle : forall X, puppethE X -> St -> X * St)
    (client : sshClient) (net : string) (boot : bool)
    (s0 s1 s2 s3 : St) (infos : containerInfos) (out1 out2 : bytes) :
  handle _ (InspectContainer client (checkContainer net boot)) s0 = (inl infos, s1) ->
  running infos = true ->
  handle _ (ClientRun client (dockerExec net boot
              "geth --exec admin.nodeInfo.id attach /root/.ethereum/bzzd.ipc")) s1
    = ((out1, None), s2) ->
  handle _ (ClientRun client (dockerExec net boot "cat /genesis.json")) s2
    = ((out2, None), s3) ->
  let key := handle _ (ClientRun client (dockerExec net boot "cat /bzzkey.json")) s3 in
  let pass := handle _ (ClientRun client (dockerExec net boot "cat /bzzpass")) (snd key) in
  let probe := handle _ (CheckPort (server client)
                           (index 0 (portmap infos) (index "" (envvars infos) "PORT")))
                        (snd pass) in
  let warning :=
    ev (Log "warn" (Title (checkKind boot) +:+ " devp2p port seems unreachable")
          [("server", LStr (server client));
           ("port", LInt (index 0 (portmap infos) (index "" (envvars infos) "PORT")));
           ("err", LErr (fst probe))]) in
  exists s',
    run handle 8 (checkSwarmNode client net boot) s0 [] =
    Some (Returned (Some (assembledSnapshot client infos out1 out2 (fst key) (fst pass)),
                    None),
          s',
          ([ev (InspectContainer client (checkContainer net boot));
            ev (ClientRun client (dockerExec net boot
                 "geth --exec admin.nodeInfo.id attach /root/.ethereum/bzzd.ipc"));
            ev (ClientRun client (dockerExec net boot "cat /genesis.json"));
            ev (ClientRun client (dockerExec net boot "cat /bzzkey.json"));
            ev (ClientRun client (dockerExec net boot "cat /bzzpass"));
            ev (CheckPort (server client)
                  (index 0 (portmap infos) (index "" (envvars infos) "PORT")))]
           ++ (if is_Some_b (fst probe) then [warning] else []))%list).
Proof.
  intros Hinspect Hrun Hid Hgen key pass probe warning. unfold checkSwarmNode.
  rewrite run_call, Hinspect. cbn [fst snd].
  rewrite Hrun. cbn [negb].
  rewrite run_call, Hid. cbn [fst snd is_Some_b].
  rewrite run_call, Hgen. cbn [fst snd is_Some_b].
  rewrite run_call, run_call, run_call.
  fold key. fold pass. fold probe.
  destruct (is_Some_b (fst probe)) eqn:Hprobe.
  - rewrite run_call, run_ret. eexists. reflexivity.
  - rewrite run_bind_ret, run_ret. eexists. reflexivity.
Qed.

(** X3. The two credential reads are optional: whatever they answer, the
    check still returns a snapshot and no error. A read that fails leaves
    its field empty; one that succeeds fills it with the output, trimmed. *)
Theorem checkSwarmNode_optional_credentials
    {St : Type} (handle : forall X, puppethE X -> St -> X * St)
    (client : sshClient) (net : string) (boot : bool)
    (s0 s1 s2 s3 s4 s5 : St) (infos : containerInfos)
    (out1 out2 keyOut passOut : bytes) (keyErr passErr : option error) :
  handle _ (InspectContainer client (checkContainer net boot)) s0 = (inl infos, s1) ->
  running infos = true ->
  handle _ (ClientRun client (dockerExec net boot
              "geth --exec admin.nodeInfo.id attach /root/.ethereum/bzzd.ipc")) s1
    = ((out1, None), s2) ->
  handle _ (ClientRun client (dockerExec net boot "cat /genesis.json")) s2
    = ((out2, None), s3) ->
  handle _ (ClientRun client (dockerExec net boot "cat /bzzkey.json")) s3
    = ((keyOut, keyErr), s4) ->
  handle _ (ClientRun client (dockerExec net boot "cat /bzzpass")) s4
    = ((passOut, passErr), s5) ->
  exists stats s' tr,
    run handle 8 (checkSwarmNode client net boot) s0 [] =
      Some (Returned (Some stats, None), s', tr) /\
    keyJSON stats = match keyErr with Some _ => "" | None => TrimSpace keyOut end /\
    keyPass stats = match passErr with Some _ => "" | None => TrimSpace passOut end.
Proof.
  intros Hinspect Hrun Hid Hgen Hkey Hpass.
  destruct (checkSwarmNode_assembles handle client net boot s0 s1 s2 s3 infos out1 out2
              Hinspect Hrun Hid Hgen) as [s' Hres].
  cbv zeta in Hres. rewrite Hkey in Hres. cbn [fst snd] in Hres. rewrite Hpass in Hres.
  cbn [fst snd] in Hres.
  do 3 eexists. split; [exact Hres|].
  cbn [assembledSnapshot keyJSON keyPass fst snd].
  destruct keyErr, passErr; split; reflexivity.
Qed.

Lemma checkSwarmNode_optional_credentials_witness :
  exists stats s' tr,
    run (play keylessNode) 8 (checkSwarmNode testClient "testnet" false) 0%nat [] =
      Some (Returned (Some stats, None), s', tr) /\
    keyJSON stats = "" /\
    keyPass stats = "".
Proof.
  apply (checkSwarmNode_optional_credentials (play keylessNode) testClient "testnet" false
           0%nat 1%nat 2%nat 3%nat 4%nat 5%nat fullContainer
           (dq +:+ "abc" +:+ dq +:+ nl) ("{old}" +:+ nl) "" ""
           (Some (ErrRemoteCommandFailed "No such file or directory"))
           (Some (ErrRemoteCommandFailed "No such file or directory"))); reflexivity.
Defined.

(** X4. A port that cannot be reached costs a warning in the log and
    nothing else: the snapshot is returned, with no error, and it carries
    the port that was probed. *)
Theorem checkSwarmNode_unreachable_port_only_warns
    {St : Type} (handle : forall X, puppethE X -> St -> X * St)
    (client : sshClient) (net : string) (boot : bool)
    (s0 s1 s2 s3 s4 s5 s6 : St) (infos : containerInfos)
    (out1 out2 : bytes) (key pass : bytes * option error) (e : error) :
  handle _ (InspectContainer client (checkContainer net boot)) s0 = (inl infos, s1) ->
  running infos = true ->
  handle _ (ClientRun client (dockerExec net boot
              "geth --exec admin.nodeInfo.id attach /root/.ethereum/bzzd.ipc")) s1
    = ((out1, None), s2) ->
  handle _ (ClientRun client (dockerExec net boot "cat /genesis.json")) s2
    = ((out2, None), s3) ->
  handle _ (ClientRun client (dockerExec net boot "cat /bzzkey.json")) s3 = (key, s4) ->
  handle _ (ClientRun client (dockerExec net boot "cat /bzzpass")) s4 = (pass, s5) ->
  handle _ (CheckPort (server client)
              (index 0 (portmap infos) (index "" (envvars infos) "PORT"))) s5
    = (Some e, s6) ->
  exists s' tr,
    run handle 8 (checkSwarmNode client net boot) s0 [] =
      Some (Returned (Some (assembledSnapshot client infos out1 out2 key pass), None),
            s', tr) /\
    port (assembledSnapshot client infos out1 out2 key pass)
      = index 0 (portmap infos) (index "" (envvars infos) "PORT") /\
    last tr =
      Some (ev (Log "warn" (Title (checkKind boot) +:+ " devp2p port seems unreachable")
                  [("server", LStr (server client));
                   ("port", LInt (index 0 (portmap infos)
                                    (index "" (envvars infos) "PORT")));
                   ("err", LErr (Some e))])).
Proof.
  intros Hinspect Hrun Hid Hgen Hkey Hpass Hport.
  destruct (checkSwarmNode_assembles handle client net boot s0 s1 s2 s3 infos out1 out2
              Hinspect Hrun Hid Hgen) as [s' Hres].
  cbv zeta in Hres. rewrite Hkey in Hres. cbn [fst snd] in Hres. rewrite Hpass in Hres.
  cbn [fst snd] in Hres. rewrite Hport in Hres. cbn [fst snd is_Some_b] in Hres.
  do 2 eexists. split; [exact Hres|]. split; reflexivity.
Qed.

Lemma checkSwarmNode_unreachable_port_only_warns_witness :
  exists s' tr,
    run (play keylessNode) 8 (checkSwarmNode testClient "testnet" false) 0%nat [] =
      Some (Returned
              (Some (assembledSnapshot testClient fullContainer
                       (dq +:+ "abc" +:+ dq +:+ nl) ("{old}" +:+ nl)
                       ("", Some (ErrRemoteCommandFailed "No such file or directory"))
                       ("", Some (ErrRemoteCommandFailed "No such file or directory"))),
               None), s', tr) /\
    port (assembledSnapshot testClient fullContainer
            (dq +:+ "abc" +:+ dq +:+ nl) ("{old}" +:+ nl)
            ("", Some (ErrRemoteCommandFailed "No such file or directory"))
            ("", Some (ErrRemoteCommandFailed "No such file or directory")))
      = 31000 /\
    last tr =
      Some (ev (Log "warn" "Swarmnode devp2p port seems unreachable"
                  [("server", LStr "host1"); ("port", LInt 31000);
                   ("err", LErr (Some (ErrRemoteCommandFailed "connection refused")))])).
Proof.
  apply (checkSwarmNode_unreachable_port_only_warns (play keylessNode) testClient
           "testnet" false 0%nat 1%nat 2%nat 3%nat 4%nat 5%nat 6%nat fullContainer
           (dq +:+ "abc" +:+ dq +:+ nl) ("{old}" +:+ nl)
           ("", Some (ErrRemoteCommandFailed "No such file or directory"))
           ("", Some (ErrRemoteCommandFailed "No such file or directory"))
           (ErrRemoteCommandFailed "connection refused")); reflexivity.
Defined.

(** X5. A snapshot that a check returns always carries a node identity, of
    the form enode://id@address:port, and neither a network id nor a bzz
    port; [deploySwarm] therefore takes it for a peer, also when the check
    was made for a bootstrap node. *)
Theorem checkSwarmNode_snapshot_is_peer
    {St : Type} (handle : forall X, puppethE X -> St -> X * St)
    (client : sshClient) (net : string) (boot : bool)
    (fuel : nat) (s s' : St) (tr tr' : list event) (snap : swarmInfos)
    (err : option error) :
  run handle fuel (checkSwarmNode client net boot) s tr
    = Some (Returned (Some snap, err), s', tr') ->
  err = None /\
  (exists id, swarmenode snap
              = "enode://" +:+ id +:+ "@" +:+ address client +:+ ":" +:+ itoa (port snap)) /\
  deployKind snap = "swarmnode" /\
  network snap = 0 /\
  bzzPort snap = 0.
Proof.
  unfold checkSwarmNode. intros H.
  run_inv_call H.
  destruct (handle _ (InspectContainer client (checkContainer net boot)) s)
    as [[infos|e] s1]; cbn [fst snd] in H.
  2: { run_inv_ret H. discriminate. }
  destruct (running infos); cbn [negb] in H.
  2: { run_inv_ret H. discriminate. }
  run_inv_call H.
  destruct (handle _ (ClientRun client (dockerExec net boot
              "geth --exec admin.nodeInfo.id attach /root/.ethereum/bzzd.ipc")) s1)
    as [[out1 [e1|]] s2]; cbn [fst snd is_Some_b] in H.
  { run_inv_ret H. discriminate. }
  run_inv_call H.
  destruct (handle _ (ClientRun client (dockerExec net boot "cat /genesis.json")) s2)
    as [[out2 [e2|]] s3]; cbn [fst snd is_Some_b] in H.
  { run_inv_ret H. discriminate. }
  run_inv_call H. run_inv_call H. run_inv_call H.
  match type of H with
  | context [is_Some_b ?e] =>
    match e with
    | context [CheckPort] => destruct (is_Some_b e)
    end
  end.
  - run_inv_call H. run_inv_ret H.
    injection H as <- <- _ _. repeat split. eexists. reflexivity.
  - rewrite run_bind_ret in H. run_inv_ret H.
    injection H as <- <- _ _. repeat split. eexists. reflexivity.
Qed.

Lemma checkSwarmNode_snapshot_is_peer_witness :
  @None error = None /\
  (exists id, swarmenode fullSnapshot
              = "enode://" +:+ id +:+ "@" +:+ address testClient +:+ ":"
                +:+ itoa (port fullSnapshot)) /\
  deployKind fullSnapshot = "swarmnode" /\
  network fullSnapshot = 0 /\
  bzzPort fullSnapshot = 0.
Proof.
  apply (checkSwarmNode_snapshot_is_peer (play (liveNode (inl fullContainer))) testClient
           "testnet" true 8 0%nat 6%nat []
           [ev (InspectContainer testClient (checkContainer "testnet" true));
            ev (ClientRun testClient (dockerExec "testnet" true
                 "geth --exec admin.nodeInfo.id attach /root/.ethereum/bzzd.ipc"));
            ev (ClientRun testClient (dockerExec "testnet" true "cat /genesis.json"));
            ev (ClientRun testClient (dockerExec "testnet" true "cat /bzzkey.json"));
            ev (ClientRun testClient (dockerExec "testnet" true "cat /bzzpass"));
            ev (CheckPort "host1" 31000)]
           fullSnapshot None).
  reflexivity.
Defined.

(** ** More on the uploaded files *)

Lemma prefixb_append (p s : string) : prefixb p (p +:+ s) = true.
Proof.
  induction p as [|c p IH]; [reflexivity|].
  rewrite append_cons. cbn [prefixb]. rewrite Ascii.eqb_refl. exact IH.
Qed.

Lemma deployFiles_dom (workdir net : string) (swarmboot : list string)
    (config : swarmInfos) :
  dom (deployFiles workdir net swarmboot config) =
  {[ filepath_Join workdir "Dockerfile";
     filepath_Join workdir "docker-compose.yaml";
     filepath_Join workdir "genesis.json" ]}
  ∪ (if String.eqb (keyJSON config) "" then ∅
     else {[ filepath_Join workdir "bzzkey.json"; filepath_Join workdir "bzzpass" ]}).
Proof.
  unfold deployFiles. destruct (String.eqb (keyJSON config) ""); cbn [negb];
    rewrite ?dom_insert_L, dom_empty_L; set_solver.
Qed.

Lemma deployFiles_lookup (workdir net : string) (swarmboot : list string)
    (config : swarmInfos) :
  deployFiles workdir net swarmboot config !! filepath_Join workdir "genesis.json"
    = Some (genesis config) /\
  deployFiles workdir net swarmboot config !! filepath_Join workdir "bzzkey.json"
    = (if String.eqb (keyJSON config) "" then None else Some (keyJSON config)) /\
  deployFiles workdir net swarmboot config !! filepath_Join workdir "bzzpass"
    = (if String.eqb (keyJSON config) "" then None else Some (keyPass config)).
Proof.
  unfold deployFiles. destruct (String.eqb (keyJSON config) ""); cbn [negb];
    repeat split;
    repeat (rewrite lookup_insert_ne
              by (intros H; apply filepath_Join_inj in H; discriminate));
    first [apply lookup_insert_eq | apply lookup_empty].
Qed.

(** X6. The upload holds the build recipe, the composition descriptor and
    the genesis payload as it is in the configuration; the key and the
    passphrase are added, as they are, exactly when the configuration has
    a key. Nothing else is uploaded. *)
Theorem deployFiles_contents (workdir net : string) (swarmboot : list string)
    (config : swarmInfos) :
  dom (deployFiles workdir net swarmboot config) =
    {[ filepath_Join workdir "Dockerfile";
       filepath_Join workdir "docker-compose.yaml";
       filepath_Join workdir "genesis.json" ]}
    ∪ (if String.eqb (keyJSON config) "" then ∅
       else {[ filepath_Join workdir "bzzkey.json"; filepath_Join workdir "bzzpass" ]}) /\
  deployFiles workdir net swarmboot config !! filepath_Join workdir "genesis.json"
    = Some (genesis config) /\
  deployFiles workdir net swarmboot config !! filepath_Join workdir "bzzkey.json"
    = (if String.eqb (keyJSON config) "" then None else Some (keyJSON config)) /\
  deployFiles workdir net swarmboot config !! filepath_Join workdir "bzzpass"
    = (if String.eqb (keyJSON config) "" then None else Some (keyPass config)).
Proof.
  split; [apply deployFiles_dom | apply deployFiles_lookup].
Qed.

Lemma deployFiles_paths (workdir net : string) (swarmboot : list string)
    (config : swarmInfos) (path : string) :
  path ∈ dom (deployFiles workdir net swarmboot config) ->
  exists name, path = filepath_Join workdir name.
Proof.
  rewrite deployFiles_dom. destruct (String.eqb (keyJSON config) "");
    rewrite ?elem_of_union, ?elem_of_singleton, ?elem_of_empty;
    intros H; decompose [or] H; subst; try contradiction; eexists; reflexivity.
Qed.

(** X7. Every uploaded path lies in the scratch directory, the one the
    deferred [rm -rf] removes. *)
Theorem deployFiles_under_workdir (workdir net : string) (swarmboot : list string)
    (config : swarmInfos) (path : string) :
  path ∈ dom (deployFiles workdir net swarmboot config) ->
  prefixb (workdir +:+ "/") path = true.
Proof.
  intros Hin. apply deployFiles_paths in Hin as [name ->].
  unfold filepath_Join. rewrite <- append_assoc. apply prefixb_append.
Qed.

Lemma deployFiles_under_workdir_witness :
  prefixb ("42" +:+ "/") (filepath_Join "42" "genesis.json") = true.
Proof.
  apply (deployFiles_under_workdir "42" "testnet" [] testConfig).
  rewrite deployFiles_dom. set_solver.
Defined.

Lemma itoa_inj (a b : Z) : itoa a = itoa b -> a = b.
Proof.
  unfold itoa. intros H. apply DecimalZ.to_int_inj.
  assert (Hs : Some (Z.to_int a) = Some (Z.to_int b))
    by (rewrite <- !NilEmpty.isi, H; reflexivity).
  injection Hs as Hs. exact Hs.
Qed.

Lemma split_at_separator (c : ascii) (a b x y : string) :
  mem c a = false -> mem c b = false ->
  a +:+ String c x = b +:+ String c y -> a = b.
Proof.
  revert b. induction a as [|p a IH]; intros [|q b] Ha Hb H.
  - reflexivity.
  - rewrite append_cons in H. injection H as Hc _. subst q.
    cbn [mem] in Hb. rewrite Ascii.eqb_refl in Hb. discriminate.
  - rewrite append_cons in H. injection H as Hc _. subst p.
    cbn [mem] in Ha. rewrite Ascii.eqb_refl in Ha. discriminate.
  - rewrite !append_cons in H. injection H as -> H.
    cbn [mem] in Ha, Hb. apply orb_false_elim in Ha as [_ Ha], Hb as [_ Hb].
    f_equal. apply IH; assumption.
Qed.

(** X8. Two deployments that drew different random numbers share no
    uploaded path, whatever their networks and configurations. *)
Theorem deployFiles_disjoint_scratch (r1 r2 : Z) (net1 net2 : string)
    (swarmboot1 swarmboot2 : list string) (config1 config2 : swarmInfos) :
  r1 <> r2 ->
  dom (deployFiles (itoa r1) net1 swarmboot1 config1)
  ## dom (deployFiles (itoa r2) net2 swarmboot2 config2).
Proof.
  intros Hne path H1 H2.
  apply deployFiles_paths in H1 as [n1 E1], H2 as [n2 E2].
  apply Hne, itoa_inj. rewrite E1 in E2. unfold filepath_Join in E2.
  apply (split_at_separator "/" _ _ n1 n2);
    [apply itoa_no_letter; [reflexivity | discriminate] ..| exact E2].
Qed.

Lemma deployFiles_disjoint_scratch_witness :
  dom (deployFiles (itoa 42) "testnet" [] testConfig)
  ## dom (deployFiles (itoa 43) "testnet" [] testConfig).
Proof.
  apply (deployFiles_disjoint_scratch 42 43 "testnet" "testnet" [] [] testConfig testConfig).
  discriminate.
Defined.

Lemma occurs_append_l (p a b : string) : occurs p a -> occurs p (a +:+ b).
Proof.
  intros (x & y & ->). exists x, (y +:+ b). rewrite !append_assoc. reflexivity.
Qed.

(** X9. The build recipe does not look at whether the configuration has a
    key: it adds bzzkey.json and bzzpass to the image and passes the
    password file in every case, while without a key neither file is
    uploaded. *)
Theorem recipe_adds_key_files_without_key (workdir net : string)
    (swarmboot : list string) (config : swarmInfos) :
  keyJSON config = "" ->
  deployFiles workdir net swarmboot config !! filepath_Join workdir "bzzkey.json" = None /\
  deployFiles workdir net swarmboot config !! filepath_Join workdir "bzzpass" = None /\
  occurs ("ADD bzzkey.json /bzzkey.json" +:+ nl +:+ "ADD bzzpass /bzzpass" +:+ nl)
         (renderDockerfile swarmboot config) /\
  (forall key, renderDockerfile swarmboot (set_keyJSON key config)
               = renderDockerfile swarmboot config).
Proof.
  intros Hkey.
  destruct (deployFiles_lookup workdir net swarmboot config) as (_ & Hk & Hp).
  rewrite Hkey in Hk, Hp. cbn [String.eqb] in Hk, Hp.
  split; [exact Hk|]. split; [exact Hp|]. split.
  - rewrite renderDockerfile_eq. apply occurs_append_l, containsb_spec. reflexivity.
  - intros key. rewrite !renderDockerfile_eq. reflexivity.
Qed.

Lemma recipe_adds_key_files_without_key_witness :
  deployFiles "42" "testnet" [] (set_keyJSON "" testConfig)
    !! filepath_Join "42" "bzzkey.json" = None /\
  deployFiles "42" "testnet" [] (set_keyJSON "" testConfig)
    !! filepath_Join "42" "bzzpass" = None /\
  occurs ("ADD bzzkey.json /bzzkey.json" +:+ nl +:+ "ADD bzzpass /bzzpass" +:+ nl)
         (renderDockerfile [] (set_keyJSON "" testConfig)) /\
  (forall key, renderDockerfile [] (set_keyJSON key (set_keyJSON "" testConfig))
               = renderDockerfile [] (set_keyJSON "" testConfig)).
Proof.
  apply (recipe_adds_key_files_without_key "42" "testnet" [] (set_keyJSON "" testConfig)).
  reflexivity.
Defined.

(** ** More on the wizard *)

Section WizardFacts.
Context {St : Type}.
Variable handle : forall X, puppethE X -> St -> X * St.

Lemma run_bind_ret_r {R : Type} fuel : forall (t : itree goE R) s tr,
  run handle fuel (ITree.bind t (fun x => Ret x)) s tr = run handle fuel t s tr.
Proof.
  induction fuel as [|fuel IH]; intros t s tr; [reflexivity|].
  rewrite !run_unfold, observe_bind.
  destruct (observe t) as [r|t'|X e h].
  - reflexivity.
  - apply IH.
  - destruct e as [[msg]|e']; [reflexivity|].
    destruct (handle X e' s) as [x s']. apply IH.
Qed.

Lemma readBzzAccount_unrolls {R : Type} (k : Address -> itree goE R) (a : Address) (s' : St)
    (n : nat) : forall (st : nat -> St) (tr : list event) (fuel : nat),
  (forall i, (i < n)%nat -> handle _ ReadAddress (st i) = (None, st (S i))) ->
  handle _ ReadAddress (st n) = (Some a, s') ->
  run handle (2 * n + 1 + fuel) (ITree.bind readBzzAccount k) (st 0%nat) tr =
  run handle fuel (k a) s' (tr ++ repeat (ev ReadAddress) (S n))%list.
Proof.
  induction n as [|n IH]; intros st tr fuel Hno Hyes.
  - cbn [Nat.mul Nat.add repeat]. erewrite readBzzAccount_given by exact Hyes. reflexivity.
  - replace (2 * S n + 1 + fuel)%nat with (S (S (2 * n + 1 + fuel))) by lia.
    erewrite readBzzAccount_refused by (apply Hno; lia).
    rewrite (IH (fun i => st (S i))).
    + cbn [repeat]. rewrite <- app_assoc. reflexivity.
    + intros i Hi. apply Hno. lia.
    + exact Hyes.
Qed.

(** X10. The account loop asks again after every refusal and ends at the
    first address given: after [n] refusals it has asked [n + 1] times and
    returns that address. *)
Theorem readBzzAccount_asks_until_given (a : Address) (s' : St) (n : nat)
    (st : nat -> St) :
  (forall i, (i < n)%nat -> handle _ ReadAddress (st i) = (None, st (S i))) ->
  handle _ ReadAddress (st n) = (Some a, s') ->
  run handle (2 * n + 2) readBzzAccount (st 0%nat) [] =
  Some (Returned a, s', repeat (ev ReadAddress) (S n)).
Proof.
  intros Hno Hyes. rewrite <- run_bind_ret_r.
  replace (2 * n + 2)%nat with (2 * n + 1 + 1)%nat by lia.
  rewrite (readBzzAccount_unrolls _ a s' n st [] 1%nat Hno Hyes).
  reflexivity.
Qed.

Lemma readBzzAccount_inv {R : Type} (k : Address -> itree goE R) (fuel : nat) :
  forall s tr res,
  run handle fuel (ITree.bind readBzzAccount k) s tr = Some res ->
  exists a fuel' s1 tr1, run handle fuel' (k a) s1 tr1 = Some res.
Proof.
  induction fuel as [fuel IH] using lt_wf_ind. intros s tr res H.
  destruct fuel as [|fuel]; [discriminate|].
  destruct (handle _ ReadAddress s) as [[a|] s1] eqn:Hans.
  - rewrite (readBzzAccount_given handle k fuel s s1 tr a Hans) in H. eauto.
  - destruct fuel as [|fuel].
    + rewrite run_unfold, observe_bind in H. unfold readBzzAccount in H. cbn in H.
      rewrite Hans in H. discriminate.
    + rewrite (readBzzAccount_refused handle k fuel s s1 tr Hans) in H.
      apply IH in H; [exact H | lia].
Qed.
End WizardFacts.

Lemma readBzzAccount_asks_until_given_witness :
  run (hesitant 2 {| addressBits := 291 |} ("", None)) (2 * 2 + 2) readBzzAccount 0%nat [] =
  Some (Returned {| addressBits := 291 |}, 3%nat, repeat (ev ReadAddress) 3).
Proof.
  apply (readBzzAccount_asks_until_given (hesitant 2 {| addressBits := 291 |} ("", None))
           {| addressBits := 291 |} 3%nat 2 (fun i => i)).
  - intros i Hi. destruct i as [|[|i]]; [reflexivity | reflexivity | lia].
  - reflexivity.
Defined.

(** Backward, on a goal that assumes a run has a result: the run had fuel
    for its next node, whose answer and next state get names. *)
Ltac run_back :=
  first [ rewrite run_bind_bind
        | rewrite run_bind_ret
        | match goal with
          | |- run ?h ?f _ _ _ = Some _ -> _ =>
            destruct f; [intros Hnone; discriminate Hnone|];
            rewrite run_call;
            match goal with
            | |- context [h ?X ?e ?s] => destruct (h X e s) as [? ?]; cbn [fst snd]
            end
          end ];
  cbv beta zeta; fields.

Ltac run_back_ret :=
  match goal with
  | |- run _ ?f _ _ _ = Some _ -> _ =>
    destruct f; [intros Hnone; discriminate Hnone|]; rewrite run_ret
  end.

(** X11. Whatever the operator answers, a configuration that the merge
    returns has the wizard's genesis and chain id, the node identity of the
    snapshot it started from, an account that came through the address
    parser, and a key that is either the snapshot's, kept with its
    passphrase, or a fresh one that decrypts with the passphrase given. *)
Theorem mergeSwarmInfos_keeps_identity
    {St : Type} (handle : forall X, puppethE X -> St -> X * St)
    (Genesis : Type) (MarshalIndent : Genesis -> bytes) (ChainId : Genesis -> option Z)
    (Hex : Address -> string) (HexToAddress : string -> Address)
    (DecryptKey : string -> string -> bool)
    (g : Genesis) (infos merged : swarmInfos)
    (fuel : nat) (s s' : St) (tr tr' : list event) :
  run handle fuel
    (mergeSwarmInfos Genesis MarshalIndent ChainId Hex HexToAddress DecryptKey g infos)
    s tr = Some (Returned (Some merged), s', tr') ->
  genesis merged = MarshalIndent g /\
  ChainId g = Some (network merged) /\
  enode merged = enode infos /\
  swarmenode merged = swarmenode infos /\
  (exists a, bzzAccount merged = Hex a) /\
  (if String.eqb (keyJSON infos) ""
   then DecryptKey (keyJSON merged) (keyPass merged) = true
   else keyJSON merged = keyJSON infos /\ keyPass merged = keyPass infos).
Proof.
  destruct (ChainId g) as [id|] eqn:Hid.
  2: { destruct fuel as [|fuel]; [discriminate|].
       rewrite (mergeSwarmInfos_panics_without_chain_id handle _ _ _ _ _ _ g infos fuel s tr Hid).
       discriminate. }
  unfold mergeSwarmInfos. rewrite Hid. cbv zeta. fields.
  run_back.
  destruct (String.eqb (datadir infos) ""); repeat run_back;
    (destruct (String.eqb (keyJSON infos) "") eqn:Hkey;
     [ repeat run_back;
       match goal with
       | |- context [DecryptKey ?k ?p] => destruct (DecryptKey k p) eqn:Hdec
       end; cbn [negb];
       [| repeat run_back; run_back_ret; intros Hnone; discriminate Hnone ]
     | ]);
    repeat run_back;
    (destruct (String.eqb (bzzAccount infos) "");
     [ do 3 run_back; intros Hloop;
       apply readBzzAccount_inv in Hloop as (acct & fuelLeft & sGiven & trGiven & Hloop);
       revert Hloop
     | ]);
    repeat run_back; run_back_ret; intros Hres; injection Hres as <- _ _;
    merge_fields;
    repeat split; eauto.
Qed.

Lemma mergeSwarmInfos_keeps_identity_witness :
  genesis mergedSnapshot = "{new}" /\
  Some 1337 = Some (network mergedSnapshot) /\
  enode mergedSnapshot = enode fullSnapshot /\
  swarmenode mergedSnapshot = swarmenode fullSnapshot /\
  (exists a, bzzAccount mergedSnapshot = testHex a) /\
  (if String.eqb (keyJSON fullSnapshot) ""
   then true = true
   else keyJSON mergedSnapshot = keyJSON fullSnapshot /\
        keyPass mergedSnapshot = keyPass fullSnapshot).
Proof.
  eapply (mergeSwarmInfos_keeps_identity (play (liveNode (inl fullContainer)))
            string (fun g => g) (fun _ => Some 1337) testHex testHexToAddress
            (fun _ _ => true) "{new}" fullSnapshot mergedSnapshot 16 0%nat _ []).
  reflexivity.
Defined.












(** ** What is read from the container *)

Lemma skip_suffix (n : nat) : forall s : string, exists a, s = a +:+ skip n s.
Proof.
  induction n as [|n IH]; intros s; [exists ""; reflexivity|].
  destruct s as [|c s]; [exists ""; reflexivity|].
  destruct (IH s) as [a Ha]. exists (String c a).
  cbn [skip]. rewrite append_cons, <- Ha. reflexivity.
Qed.

Lemma substring_prefix (n : nat) : forall s : string, exists b, s = substring 0 n s +:+ b.
Proof.
  induction n as [|n IH]; intros s; [exists s; destruct s; reflexivity|].
  destruct s as [|c s]; [exists ""; reflexivity|].
  destruct (IH s) as [b Hb]. exists b.
  cbn [substring]. rewrite append_cons, <- Hb. reflexivity.
Qed.

Lemma trimLeft_suffix (f : ascii -> bool) : forall s, exists a, s = a +:+ trimLeft f s.
Proof.
  induction s as [|c s [a Ha]]; [exists ""; reflexivity|].
  cbn [trimLeft]. destruct (f c); [|exists ""; reflexivity].
  exists (String c a). rewrite append_cons, <- Ha. reflexivity.
Qed.

Lemma trimRight_prefix (f : ascii -> bool) : forall s, exists b, s = trimRight f s +:+ b.
Proof.
  induction s as [|c s [b Hb]]; [exists ""; reflexivity|].
  cbn [trimRight]. destruct (trimRight f s) as [|d r].
  - destruct (f c); [exists (String c s) | exists s]; reflexivity.
  - exists b. rewrite append_cons, <- Hb. reflexivity.
Qed.

Lemma occurs_empty (s : string) : occurs "" s.
Proof. exists "", s. reflexivity. Qed.

Lemma occurs_trans (p q s : string) : occurs p q -> occurs q s -> occurs p s.
Proof.
  intros (a & b & ->) (c & d & ->). exists (c +:+ a), (b +:+ d).
  rewrite !append_assoc. reflexivity.
Qed.

Lemma TrimLeftFunc_occurs (s : bytes) (f : Z -> bool) : occurs (TrimLeftFunc s f) s.
Proof.
  unfold TrimLeftFunc. destruct (indexFunc _ _ _ _ _) as [i|]; [|apply occurs_empty].
  destruct (skip_suffix i s) as [a Ha]. exists a, "". rewrite append_nil_r. exact Ha.
Qed.

Lemma TrimRightFunc_occurs (s : bytes) (f : Z -> bool) : occurs (TrimRightFunc s f) s.
Proof.
  unfold TrimRightFunc. destruct (lastIndexFunc _ _ _ _ _) as [i|]; [|apply occurs_empty].
  destruct (RuneSelf <=? byteAt s i)%Z;
    match goal with
    | |- occurs (substring 0 ?n s) s =>
      destruct (substring_prefix n s) as [b Hb]; exists "", b; exact Hb
    end.
Qed.

Lemma TrimSpace_occurs (s : bytes) : occurs (TrimSpace s) s.
Proof.
  unfold TrimSpace, TrimFunc.
  eapply occurs_trans; [apply TrimRightFunc_occurs | apply TrimLeftFunc_occurs].
Qed.

Lemma Trim_occurs (s : bytes) (cutset : string) : occurs (Trim s cutset) s.
Proof.
  unfold Trim.
  destruct (trimRight_prefix (fun c => mem c cutset) s) as [b Hb].
  destruct (trimLeft_suffix (fun c => mem c cutset) (trimRight (fun c => mem c cutset) s))
    as [a Ha].
  eapply occurs_trans.
  - exists a, "". rewrite append_nil_r. exact Ha.
  - exists "", b. exact Hb.
Qed.

(** X17. Trimming only cuts at the two ends. The genesis of a snapshot is
    one contiguous part of what [cat /genesis.json] printed, the node id in
    its identity one contiguous part of what the identity query printed,
    and the key and the passphrase are parts of what their reads printed:
    nothing inside them is dropped or rewritten. *)
Theorem checkSwarmNode_fields_are_parts_of_output
    {St : Type} (handle : forall X, puppethE X -> St -> X * St)
    (client : sshClient) (net : string) (boot : bool)
    (s0 s1 s2 s3 : St) (infos : containerInfos) (out1 out2 : bytes) :
  handle _ (InspectContainer client (checkContainer net boot)) s0 = (inl infos, s1) ->
  running infos = true ->
  handle _ (ClientRun client (dockerExec net boot
              "geth --exec admin.nodeInfo.id attach /root/.ethereum/bzzd.ipc")) s1
    = ((out1, None), s2) ->
  handle _ (ClientRun client (dockerExec net boot "cat /genesis.json")) s2
    = ((out2, None), s3) ->
  let key := handle _ (ClientRun client (dockerExec net boot "cat /bzzkey.json")) s3 in
  let pass := handle _ (ClientRun client (dockerExec net boot "cat /bzzpass")) (snd key) in
  exists (stats : swarmInfos) (id : string) (s' : St) (tr : list event),
    run handle 8 (checkSwarmNode client net boot) s0 [] =
      Some (Returned (Some stats, None), s', tr) /\
    occurs (genesis stats) out2 /\
    swarmenode stats
      = "enode://" +:+ id +:+ "@" +:+ address client +:+ ":" +:+ itoa (port stats) /\
    occurs id out1 /\
    occurs (keyJSON stats) (fst (fst key)) /\
    occurs (keyPass stats) (fst (fst pass)).
Proof.
  intros Hinspect Hrun Hid Hgen key pass.
  destruct (checkSwarmNode_assembles handle client net boot s0 s1 s2 s3 infos out1 out2
              Hinspect Hrun Hid Hgen) as [s' Hres].
  eexists _, (Trim (TrimSpace out1) dq), s', _. split; [exact Hres|].
  cbn [assembledSnapshot genesis swarmenode keyJSON keyPass port].
  split; [apply TrimSpace_occurs|]. split; [reflexivity|].
  split; [eapply occurs_trans; [apply Trim_occurs | apply TrimSpace_occurs]|].
  fold key. fold pass.
  split.
  - destruct (is_Some_b (snd (fst key))); [apply occurs_empty | apply TrimSpace_occurs].
  - destruct (is_Some_b (snd (fst pass))); [apply occurs_empty | apply TrimSpace_occurs].
Qed.

Lemma checkSwarmNode_fields_are_parts_of_output_witness :
  exists (stats : swarmInfos) (id : string) (s' : nat) (tr : list event),
    run (play (liveNode (inl fullContainer))) 8
      (checkSwarmNode testClient "testnet" false) 0%nat [] =
      Some (Returned (Some stats, None), s', tr) /\
    occurs (genesis stats) ("{old}" +:+ nl) /\
    swarmenode stats
      = "enode://" +:+ id +:+ "@" +:+ address testClient +:+ ":" +:+ itoa (port stats) /\
    occurs id (dq +:+ "abc" +:+ dq +:+ nl) /\
    occurs (keyJSON stats) ("{key}" +:+ nl) /\
    occurs (keyPass stats) ("secret" +:+ nl).
Proof.
  apply (checkSwarmNode_fields_are_parts_of_output (play (liveNode (inl fullContainer)))
           testClient "testnet" false 0%nat 1%nat 2%nat 3%nat fullContainer
           (dq +:+ "abc" +:+ dq +:+ nl) ("{old}" +:+ nl)); reflexivity.
Defined.

(** The white space [bytes.TrimSpace] removes is Unicode's: a next-line
    character (U+0085), a no-break space (U+00A0), an em space (U+2003) and
    an ideographic space (U+3000) go from both ends, a zero-width space
    (U+200B) stays. *)
Lemma TrimSpace_unicode_space :
  let nel := String "194" (String "133" "") in
  let nbsp := String "194" (String "160" "") in
  let em := String "226" (String "128" (String "131" "")) in
  let ideographic := String "227" (String "128" (String "128" "")) in
  let zwsp := String "226" (String "128" (String "139" "")) in
  TrimSpace (nel +:+ " " +:+ nbsp +:+ "a b" +:+ em +:+ nl +:+ ideographic) = "a b" /\
  TrimSpace (zwsp +:+ "a" +:+ zwsp) = zwsp +:+ "a" +:+ zwsp.
Proof. split; reflexivity. Qed.

(** ** The report *)

(** X18. The report has four entries and no other: data directory, listen
    port, peer count and account. Genesis, network id, bzz port, node
    identity, key and passphrase are not in it. The account shown is the
    address of the key when the key file parses; when there is no key it
    is the account of the snapshot, and so it is when the key does not
    parse, which is the one case in which something is logged. *)
Theorem Report_has_four_entries
    {St : Type} (handle : forall X, puppethE X -> St -> X * St)
    (Unmarshal : string -> string + error)
    (Hex : Address -> string) (HexToAddress : string -> Address)
    (info : swarmInfos) (s0 : St) :
  exists (report : gmap string string) (s' : St),
    run handle 2 (Report Unmarshal Hex HexToAddress info) s0 [] =
    Some (Returned report, s',
          if String.eqb (keyJSON info) "" then []
          else match Unmarshal (keyJSON info) with
               | inl _ => []
               | inr err =>
                 [ev (Log "error" "Failed to retrieve bzz address" [("err", LErr (Some err))])]
               end) /\
    dom report = ({[ "Data directory"; "Listener port"; "Peer count (all total)";
                     "Bzz account" ]} : gset string) /\
    report !! "Data directory" = Some (datadir info) /\
    report !! "Listener port" = Some (itoa (port info)) /\
    report !! "Peer count (all total)" = Some (itoa (peersTotal info)) /\
    report !! "Bzz account" =
      Some (if String.eqb (keyJSON info) "" then bzzAccount info
            else match Unmarshal (keyJSON info) with
                 | inl addr => Hex (HexToAddress addr)
                 | inr _ => bzzAccount info
                 end).
Proof.
  unfold Report.
  destruct (String.eqb (keyJSON info) ""); cbn [negb];
    [| destruct (Unmarshal (keyJSON info)) as [addr|err] ].
  - rewrite run_ret. do 2 eexists. split; [reflexivity|].
    split; [set_solver|]. repeat split; simplify_map_eq; reflexivity.
  - rewrite run_ret. do 2 eexists. split; [reflexivity|].
    split; [set_solver|]. repeat split; simplify_map_eq; reflexivity.
  - rewrite run_call, run_ret. do 2 eexists. split; [reflexivity|].
    split; [set_solver|]. repeat split; simplify_map_eq; reflexivity.
Qed.
